(** * boltpmapp: routing gate, project forms, CSV import and file store

    A shallow embedding of the page logic of the project-management
    application: the route guard of [src/App.tsx]; the create sequence and
    the CSV import of [src/pages/NewProject.tsx] and of the second version of
    that page the repository holds (the one validating with zod, source file
    [unnamed/part_003]); the save sequence of [src/pages/EditProject.tsx];
    and the upload and delete sequences of the Files page
    ([unnamed/part_005]).  Around these: the auth context the guard reads
    ([unnamed/part_001]) with the login, sign-up and profile pages that
    drive it, the earlier router ([unnamed/part_000]), and the
    notifications, user administration and settings pages.

    The hosted backend (tables, object storage) is not part of the
    repository; it is modelled as an explicit [World] that the handlers
    thread through a small state-and-exception monad.  Every awaited backend
    request consumes one entry of a script of outcomes, so a handler can be
    run against any pattern of remote failures. *)

From Stdlib Require Import ZArith List Bool Ascii String.
From stdpp Require Import base option list gmap strings.

Import ListNotations.
Local Open Scope string_scope.

(** * JavaScript values used by the pages *)

Module Js.
Local Open Scope Z_scope.

(** Numbers.  Only three things matter to the pages: whether a value is
    [NaN], whether it is falsy (zero or [NaN]) and which decimal literal it
    was read from.  A finite value is kept as an exact decimal
    [m * 10 ^ e]; binary rounding is not modelled, and the sign of a zero
    is dropped (both zeros are falsy). *)
Inductive num : Type :=
| NaN
| Infinity (negative : bool)
| Fin (m : Z) (e : Z).

Definition zero : num := Fin 0 0.

Definition isNaN (x : num) : bool :=
  match x with NaN => true | _ => false end.

(** ToBoolean on a number. *)
Definition truthy (x : num) : bool :=
  match x with
  | NaN => false
  | Infinity _ => true
  | Fin m _ => negb (m =? 0)
  end.

(** [x || d] on numbers. *)
Definition or_else (x d : num) : num := if truthy x then x else d.

(** [Number(x)] applied to a value that already is a number. *)
Definition Number_of_num (x : num) : num := x.

(** ToBoolean on a possibly missing string: [undefined] and [''] are
    falsy. *)
Definition truthy_str (s : option string) : bool :=
  match s with
  | None | Some "" => false
  | Some _ => true
  end.

(** [s || ''] *)
Definition str_or_empty (s : option string) : string :=
  if truthy_str s then default "" s else "".

(** [s || undefined] *)
Definition str_or_undefined (s : option string) : option string :=
  if truthy_str s then s else None.

(** ** Reading numerals *)

Definition is_ws (c : ascii) : bool :=
  let n := nat_of_ascii c in
  ((9 <=? n)%nat && (n <=? 13)%nat) || (n =? 32)%nat.

Fixpoint skip_ws (s : string) : string :=
  match s with
  | String c r => if is_ws c then skip_ws r else s
  | EmptyString => s
  end.

Definition digit_of (radix : Z) (c : ascii) : option Z :=
  let n := Z.of_nat (nat_of_ascii c) in
  let v :=
    if (48 <=? n) && (n <=? 57) then Some (n - 48)
    else if (97 <=? n) && (n <=? 122) then Some (n - 87)
    else if (65 <=? n) && (n <=? 90) then Some (n - 55)
    else None in
  match v with
  | Some d => if d <? radix then Some d else None
  | None => None
  end.

(** Longest run of digits in the given radix: accumulated value, number of
    digits read, and the rest of the input. *)
Fixpoint digits (radix : Z) (s : string) (acc : Z) (count : Z)
  : Z * Z * string :=
  match s with
  | String c r =>
      match digit_of radix c with
      | Some d => digits radix r (acc * radix + d) (count + 1)
      | None => (acc, count, s)
      end
  | EmptyString => (acc, count, s)
  end.

Definition sign_of (s : string) : bool * string :=
  match s with
  | String "-" r => (true, r)
  | String "+" r => (false, r)
  | _ => (false, s)
  end.

Definition signed (negative : bool) (m : Z) : Z :=
  if negative then - m else m.

(** Optional exponent part: [e], optional sign, at least one digit.  A
    malformed exponent is not consumed. *)
Definition exponent (s : string) : Z * string :=
  match s with
  | String c r =>
      if (c =? "e")%char || (c =? "E")%char then
        let '(neg, r1) := sign_of r in
        let '(v, n, r2) := digits 10 r1 0 0 in
        if 0 <? n then (signed neg v, r2) else (0, s)
      else (0, s)
  | EmptyString => (0, s)
  end.

(** Longest prefix that is a StrDecimalLiteral: the value and what
    follows it. *)
Definition decimal_prefix (s : string) : option (num * string) :=
  let '(neg, s1) := sign_of s in
  if String.prefix "Infinity" s1 then
    Some (Infinity neg, String.substring 8 (String.length s1 - 8) s1)
  else
    let '(ip, n1, s2) := digits 10 s1 0 0 in
    let '(m, n2, s3) :=
      match s2 with
      | String "." r =>
          let '(m, n2, s3) := digits 10 r ip 0 in
          if (0 <? n1) || (0 <? n2) then (m, n2, s3) else (ip, 0, s2)
      | _ => (ip, 0, s2)
      end in
    if (0 <? n1) || (0 <? n2) then
      let '(e, s4) := exponent s3 in
      Some (Fin (signed neg m) (e - n2), s4)
    else None.

(** [parseFloat(s)]: leading white space is skipped, the longest numeric
    prefix is read, anything after it is ignored. *)
Definition parseFloat (s : string) : num :=
  match decimal_prefix (skip_ws s) with
  | Some (v, _) => v
  | None => NaN
  end.

(** [parseFloat(x)] on a cell that may be [undefined]: the argument is
    first converted to the string ["undefined"]. *)
Definition parseFloat_cell (c : option string) : num :=
  parseFloat (default "undefined" c).

Definition radix_literal (s : string) : option (Z * string) :=
  match s with
  | String "0" (String c r) =>
      if (c =? "x")%char || (c =? "X")%char then Some (16, r)
      else if (c =? "o")%char || (c =? "O")%char then Some (8, r)
      else if (c =? "b")%char || (c =? "B")%char then Some (2, r)
      else None
  | _ => None
  end.

(** [Number(s)] on a string: the whole string, white space at both ends
    apart, must be a numeric literal; the empty string reads as 0. *)
Definition Number_of_string (s : string) : num :=
  let t := skip_ws s in
  match t with
  | EmptyString => zero
  | _ =>
      match radix_literal t with
      | Some (radix, r) =>
          let '(v, n, rest) := digits radix r 0 0 in
          if (0 <? n) && (String.length (skip_ws rest) =? 0)%nat
          then Fin v 0 else NaN
      | None =>
          match decimal_prefix t with
          | Some (v, rest) =>
              if (String.length (skip_ws rest) =? 0)%nat then v else NaN
          | None => NaN
          end
      end
  end.

(** Decimal rendering of a natural number, as a template literal prints
    [Date.now()]. *)
Definition digit_char (d : N) : ascii := ascii_of_N (48 + d).

Fixpoint render_digits (fuel : nat) (n : N) (acc : string) : string :=
  match fuel with
  | O => acc
  | S fuel' =>
      let acc' := String (digit_char (n mod 10)) acc in
      if (n <? 10)%N then acc' else render_digits fuel' (n / 10)%N acc'
  end.

Definition toString_N (n : N) : string :=
  render_digits (S (N.to_nat (N.log2 n))) n "".

End Js.

(** * The auth context and the route guard ([src/App.tsx]) *)

Module Auth.

(** The part of the session user the pages can see.  [approved] stands for
    [user.user_metadata?.approved], the flag the commented-out check of
    [AuthenticatedLayout] would have read. *)
Record User : Type := {
  id : string;
  email : string;
  approved : option bool;
}.

Definition set_approved (b : option bool) (u : User) : User :=
  {| id := id u; email := email u; approved := b |}.

(** What [useAuth()] hands to a component. *)
Record AuthContextType : Type := {
  user : option User;
  loading : bool;
}.

(** The three states of the gate. *)
Inductive GateState : Type := loading_state | unauthenticated | authenticated.

Definition state_of (a : AuthContextType) : GateState :=
  if loading a then loading_state
  else match user a with
       | None => unauthenticated
       | Some _ => authenticated
       end.

End Auth.

Module Router.
Import Auth.

Inductive Page : Type :=
| Login | Signup | Dashboard | NewProject | ProjectList | ProjectDetail
| EditProject | UserManagement | Notifications | Files | Reports | Profile
| Settings.

(** What a route renders to. *)
Inductive Element : Type :=
| Nothing                         (* [undefined]: nothing is rendered *)
| LoadingDiv                      (* the "Loading..." placeholder *)
| Navigate (to : string) (from : option string) (replace : bool)
| PageElement (p : Page).

(** A request: the segments of [location.pathname]. *)
Definition Pathname : Type := list string.

Fixpoint join_path (p : Pathname) : string :=
  match p with
  | [] => ""
  | s :: r => "/" ++ s ++ join_path r
  end.

Definition pathname_string (p : Pathname) : string :=
  match p with
  | [] => "/"
  | _ => join_path p
  end.

(** [AuthenticatedLayout({ children })] *)
Definition AuthenticatedLayout
    (auth : AuthContextType) (location : Pathname) (children : Element)
  : Element :=
  if loading auth then LoadingDiv
  else match user auth with
       | None => Navigate "/login" (Some (pathname_string location)) false
       | Some _ => children
       end.

(** [ProtectedRoute({ children })] *)
Definition ProtectedRoute
    (auth : AuthContextType) (location : Pathname) (children : Element)
  : Element :=
  AuthenticatedLayout auth location children.

(** Route patterns. *)
Inductive Segment : Type :=
| Static (s : string)
| Param (name : string).

(** A route of [App]: either directly under [Routes], or a child of the
    pathless layout route whose element is [<ProtectedRoute />]. *)
Inductive Branch : Type :=
| Top (pattern : list Segment) (element : Element)
| UnderProtected (pattern : list Segment) (page : Page).

Definition pattern_of (b : Branch) : list Segment :=
  match b with
  | Top p _ => p
  | UnderProtected p _ => p
  end.

(** The route table of [App], in source order. *)
Definition routes : list Branch := [
  Top [Static "login"] (PageElement Login);
  Top [Static "signup"] (PageElement Signup);
  UnderProtected [Static "dashboard"] Dashboard;
  UnderProtected [Static "projects"; Static "new"] NewProject;
  UnderProtected [Static "projects"] ProjectList;
  UnderProtected [Static "projects"; Param "id"] ProjectDetail;
  UnderProtected [Static "projects"; Param "id"; Static "edit"] EditProject;
  UnderProtected [Static "admin"; Static "users"] UserManagement;
  UnderProtected [Static "notifications"] Notifications;
  UnderProtected [Static "projects"; Param "id"; Static "files"] Files;
  UnderProtected [Static "reports"] Reports;
  UnderProtected [Static "profile"] Profile;
  UnderProtected [Static "admin"; Static "settings"] Settings;
  Top [] (Navigate "/dashboard" None true)
].

(** No route sets [caseSensitive], so the router compares the text of a
    static segment with the [i] flag: a letter matches in either case. *)
Definition lower (c : ascii) : ascii :=
  let n := N_of_ascii c in
  if ((65 <=? n) && (n <=? 90))%N then ascii_of_N (n + 32) else c.

Fixpoint lowercase (s : string) : string :=
  match s with
  | EmptyString => EmptyString
  | String c r => String (lower c) (lowercase r)
  end.

Definition segment_matches (s : Segment) (x : string) : bool :=
  match s with
  | Static t => String.eqb (lowercase t) (lowercase x)
  | Param _ => negb (String.eqb x "")
  end.

Fixpoint pattern_matches (p : list Segment) (path : Pathname) : bool :=
  match p, path with
  | [], [] => true
  | s :: p', x :: path' => segment_matches s x && pattern_matches p' path'
  | _, _ => false
  end.

(** The router prefers the branch with the highest score: a static
    segment counts 10, a parameter 3, each segment 1 more. *)
Definition segment_score (s : Segment) : nat :=
  match s with
  | Static _ => 11
  | Param _ => 4
  end.

Definition score (p : list Segment) : nat :=
  foldr (fun s acc => (segment_score s + acc)%nat) 0%nat p.

(** First branch of highest score among those that match. *)
Fixpoint best_match (bs : list Branch) (path : Pathname) : option Branch :=
  match bs with
  | [] => None
  | b :: bs' =>
      let later := best_match bs' path in
      if pattern_matches (pattern_of b) path then
        match later with
        | Some b' =>
            if (score (pattern_of b') <=? score (pattern_of b))%nat
            then Some b else Some b'
        | None => Some b
        end
      else later
  end.

Definition matchRoutes (path : Pathname) : option Branch :=
  best_match routes path.

(** The page a branch is declared for, if any. *)
Definition requested_page (b : Branch) : option Page :=
  match b with
  | Top _ (PageElement p) => Some p
  | Top _ _ => None
  | UnderProtected _ p => Some p
  end.

Definition is_protected (b : Branch) : bool :=
  match b with
  | UnderProtected _ _ => true
  | Top _ _ => false
  end.

(** What [App] renders for a request.  A branch under the layout route
    renders the layout element, [<ProtectedRoute />], which is given no
    children and renders no outlet: the page of the child route is what
    the request asked for, the element is what the guard returns. *)
Definition render (auth : AuthContextType) (location : Pathname)
    (b : Branch) : Element :=
  match b with
  | Top _ el => el
  | UnderProtected _ _ => ProtectedRoute auth location Nothing
  end.

Definition App (auth : AuthContextType) (location : Pathname) : Element :=
  match matchRoutes location with
  | Some b => render auth location b
  | None => Nothing
  end.

End Router.

(** * The hosted backend *)

(** Rows of the three tables the handlers write.  A column a page does not
    send is [None]. *)

Module Project.

Record Fields : Type := {
  name : string;
  start_date : option string;
  end_date : option string;
  vendor : option string;
  description : option string;
  user_id : option string;
  created_by : option string;
  status : option string;
  completion_percentage : option Js.num;
}.

Record Row : Type := { id : string; fields : Fields }.

(** The columns an [update] of the edit page sets. *)
Record Patch : Type := {
  new_name : string;
  new_start_date : string;
  new_end_date : string;
  new_vendor : string;
  new_description : string;
  new_status : string;
  new_completion_percentage : Js.num;
}.

Definition apply_patch (p : Patch) (r : Row) : Row :=
  {| id := id r;
     fields :=
       {| name := new_name p;
          start_date := Some (new_start_date p);
          end_date := Some (new_end_date p);
          vendor := Some (new_vendor p);
          description := Some (new_description p);
          user_id := user_id (fields r);
          created_by := created_by (fields r);
          status := Some (new_status p);
          completion_percentage := Some (new_completion_percentage p) |} |}.

End Project.

Module Activity.

(** One object of the array handed to [insert]: [id] is [None] when the
    page leaves it undefined, and the backend then generates it. *)
Record Insert : Type := {
  id : option string;
  project_id : string;
  name : string;
  quantity : option Js.num;
  unit : option string;
  rate : option Js.num;
  start_date : option string;
  end_date : option string;
}.

Record Row : Type := { row_id : string; columns : Insert }.

End Activity.

Module FileRecord.

Record Fields : Type := {
  name : string;
  url : string;
  project_id : string;
  user_id : string;
}.

Record Row : Type := { id : string; fields : Fields }.

End FileRecord.

Module Backend.

(** Of a backend error the pages read only [message]. *)
Record Error : Type := { message : string }.

(** The [{ data, error }] pair every request resolves to. *)
Record Response (A : Type) : Type := {
  data : option A;
  error : option Error;
}.
Arguments data {A} _.
Arguments error {A} _.

Inductive Request : Type :=
| InsertProject (f : Project.Fields)
| DeleteProject (id : string)
| UpdateProject (id : string) (p : Project.Patch)
| InsertActivities (rows : list Activity.Insert)
| DeleteActivitiesOfProject (project_id : string)
| InsertFile (f : FileRecord.Fields)
| DeleteFile (id : string)
| StorageUpload (path : string) (content : string)
| StorageRemove (paths : list string).

Inductive Variant : Type := default_variant | destructive.

(** What a handler does to the page and the console. *)
Inductive UiEvent : Type :=
| Toast (v : Variant) (title description : string)
| ConsoleError (label : string) (messages : list string)
| NavigateTo (path : string)
| FormReset
| SetBusy (b : bool)              (* setIsSubmitting / setLoading / setUploading *)
| ClearSelectedFile
| FetchFiles (project_id : string).

Record World : Type := {
  projects : list Project.Row;
  activities : list Activity.Row;
  files : list FileRecord.Row;
  bucket : gmap string string;      (* the 'project-files' bucket *)
  ids : nat -> string;              (* the ids the backend will generate *)
  next_id : nat;
  script : list (option Error);     (* outcome of the coming requests *)
  session : option Auth.User;       (* what [auth.getUser()] resolves to *)
  now : N;                          (* [Date.now()] *)
  requests : list Request;          (* requests sent, oldest first *)
  ui : list UiEvent;                (* page events, oldest first *)
}.

Definition set_tables (ps : list Project.Row) (acts : list Activity.Row)
    (fs : list FileRecord.Row) (w : World) : World :=
  {| projects := ps; activities := acts; files := fs;
     bucket := bucket w; ids := ids w; next_id := next_id w;
     script := script w; session := session w; now := now w;
     requests := requests w; ui := ui w |}.

Definition set_bucket (b : gmap string string) (w : World) : World :=
  {| projects := projects w; activities := activities w; files := files w;
     bucket := b; ids := ids w; next_id := next_id w;
     script := script w; session := session w; now := now w;
     requests := requests w; ui := ui w |}.

Definition set_next_id (n : nat) (w : World) : World :=
  {| projects := projects w; activities := activities w; files := files w;
     bucket := bucket w; ids := ids w; next_id := n;
     script := script w; session := session w; now := now w;
     requests := requests w; ui := ui w |}.

(** A request leaves: it is recorded and takes the next scripted
    outcome. *)
Definition sent (r : Request) (w : World) : World :=
  {| projects := projects w; activities := activities w; files := files w;
     bucket := bucket w; ids := ids w; next_id := next_id w;
     script := tail (script w); session := session w; now := now w;
     requests := requests w ++ [r]; ui := ui w |}.

Definition emit (e : UiEvent) (w : World) : World :=
  {| projects := projects w; activities := activities w; files := files w;
     bucket := bucket w; ids := ids w; next_id := next_id w;
     script := script w; session := session w; now := now w;
     requests := requests w; ui := ui w ++ [e] |}.

(** ** The monad of handlers: state and exceptions *)

Inductive Outcome (A : Type) : Type :=
| Returned (a : A)
| Thrown (e : Error).
Arguments Returned {A} _.
Arguments Thrown {A} _.

Definition M (A : Type) : Type := World -> Outcome A * World.

Definition ret {A} (a : A) : M A := fun w => (Returned a, w).

Definition bind {A B} (m : M A) (k : A -> M B) : M B :=
  fun w =>
    match m w with
    | (Returned a, w') => k a w'
    | (Thrown e, w') => (Thrown e, w')
    end.

Definition throw {A} (e : Error) : M A := fun w => (Thrown e, w).

(** [try { body } catch (error) { handler }] *)
Definition try_catch {A} (body : M A) (handler : Error -> M A) : M A :=
  fun w =>
    match body w with
    | (Returned a, w') => (Returned a, w')
    | (Thrown e, w') => handler e w'
    end.

(** [... finally { cleanup }] *)
Definition finally {A} (body : M A) (cleanup : M unit) : M A :=
  fun w =>
    match body w with
    | (o, w') =>
        match cleanup w' with
        | (Returned _, w'') => (o, w'')
        | (Thrown e, w'') => (Thrown e, w'')
        end
    end.

Definition effect (e : UiEvent) : M unit := fun w => (Returned tt, emit e w).

(** One awaited request: on a scripted failure nothing changes on the
    server and the response carries the error; otherwise [perform] is
    applied and the response carries its result. *)
Definition await {A} (r : Request) (perform : World -> A * World)
  : M (Response A) :=
  fun w =>
    let w1 := sent r w in
    match script w with
    | Some e :: _ => (Returned {| data := None; error := Some e |}, w1)
    | _ =>
        let '(a, w2) := perform w1 in
        (Returned {| data := Some a; error := None |}, w2)
    end.

(** ** Table operations *)

(** [from('projects').insert(f).select().single()] *)
Definition insert_project (f : Project.Fields) : M (Response Project.Row) :=
  await (InsertProject f) (fun w =>
    let row := {| Project.id := ids w (next_id w); Project.fields := f |} in
    (row,
     set_next_id (S (next_id w))
       (set_tables (projects w ++ [row]) (activities w) (files w) w))).

(** [from('projects').delete().eq('id', id)]; activities and files of the
    project go with it (ON DELETE CASCADE). *)
Definition delete_project (id : string) : M (Response unit) :=
  await (DeleteProject id) (fun w =>
    (tt,
     set_tables
       (filter (fun r => Project.id r ≠ id) (projects w))
       (filter (fun a => Activity.project_id (Activity.columns a) ≠ id)
               (activities w))
       (filter (fun f => FileRecord.project_id (FileRecord.fields f) ≠ id)
               (files w))
       w)).

(** [from('projects').update(p).eq('id', id)] *)
Definition update_project (id : string) (p : Project.Patch)
  : M (Response unit) :=
  await (UpdateProject id p) (fun w =>
    (tt,
     set_tables
       (map (fun r => if decide (Project.id r = id)
                      then Project.apply_patch p r else r) (projects w))
       (activities w) (files w) w)).

(** Rows stored for an array of objects: a given id is kept, a missing
    one is generated. *)
Fixpoint stored (ids : nat -> string) (n : nat) (rows : list Activity.Insert)
  : list Activity.Row :=
  match rows with
  | [] => []
  | r :: rest =>
      match Activity.id r with
      | Some i =>
          {| Activity.row_id := i; Activity.columns := r |}
            :: stored ids n rest
      | None =>
          {| Activity.row_id := ids n; Activity.columns := r |}
            :: stored ids (S n) rest
      end
  end.

Definition generated (rows : list Activity.Insert) : nat :=
  length (filter (fun r => Activity.id r = None) rows).

(** [from('activities').insert(rows)] *)
Definition insert_activities (rows : list Activity.Insert)
  : M (Response unit) :=
  await (InsertActivities rows) (fun w =>
    (tt,
     set_next_id (next_id w + generated rows)
       (set_tables (projects w)
          (activities w ++ stored (ids w) (next_id w) rows) (files w) w))).

(** [from('activities').delete().eq('project_id', id)] *)
Definition delete_activities_of (project_id : string) : M (Response unit) :=
  await (DeleteActivitiesOfProject project_id) (fun w =>
    (tt,
     set_tables (projects w)
       (filter (fun a => Activity.project_id (Activity.columns a) ≠ project_id)
               (activities w))
       (files w) w)).

(** [from('files').insert([f]).select().single()] *)
Definition insert_file (f : FileRecord.Fields)
  : M (Response FileRecord.Row) :=
  await (InsertFile f) (fun w =>
    let row := {| FileRecord.id := ids w (next_id w);
                  FileRecord.fields := f |} in
    (row,
     set_next_id (S (next_id w))
       (set_tables (projects w) (activities w) (files w ++ [row]) w))).

(** [from('files').delete().eq('id', id)] *)
Definition delete_file (id : string) : M (Response unit) :=
  await (DeleteFile id) (fun w =>
    (tt,
     set_tables (projects w) (activities w)
       (filter (fun f => FileRecord.id f ≠ id) (files w)) w)).

(** ** Object storage, bucket 'project-files' *)

(** [storage.from('project-files').upload(path, file)]: an upload the
    backend accepts puts the content under the path.  (A path that is taken
    is one of the reasons for which the backend refuses; that, like every
    refusal, is a matter of the script.) *)
Definition storage_upload (path content : string) : M (Response unit) :=
  await (StorageUpload path content) (fun w =>
    (tt, set_bucket (<[path := content]> (bucket w)) w)).

Definition remove_all (paths : list string) (b : gmap string string)
  : gmap string string :=
  foldr delete b paths.

Definition storage_remove (paths : list string) : M (Response unit) :=
  await (StorageRemove paths) (fun w =>
    (tt, set_bucket (remove_all paths (bucket w)) w)).

(** [getPublicUrl(path).data.publicUrl]: computed locally, no request. *)
Definition getPublicUrl (path : string) : string :=
  "/storage/v1/object/public/project-files/" ++ path.

(** [error.message || fallback] *)
Definition message_or (e : Error) (fallback : string) : string :=
  if Js.truthy_str (Some (message e)) then message e else fallback.

Definition run {A} (m : M A) (w : World) : World := snd (m w).

(** What a run added to the page events and to the requests sent. *)
Definition new_events (w w' : World) : list UiEvent :=
  drop (length (ui w)) (ui w').

Definition new_requests (w w' : World) : list Request :=
  drop (length (requests w)) (requests w').

(** Rows of a project. *)
Definition project_rows (id : string) (w : World) : list Project.Row :=
  List.filter (fun r => String.eqb (Project.id r) id) (projects w).

Definition activities_of (id : string) (w : World) : list Activity.Row :=
  List.filter
    (fun a => String.eqb (Activity.project_id (Activity.columns a)) id)
    (activities w).

End Backend.

Declare Scope handler_scope.
Delimit Scope handler_scope with handler.
Notation "x <- m ;; k" := (Backend.bind m (fun x => k))
  (at level 100, m at next level, right associativity) : handler_scope.
Notation "m ;; k" := (Backend.bind m (fun _ => k))
  (at level 100, right associativity) : handler_scope.

(** * What the CSV reader delivers *)

Module Papa.

(** One entry of [results.errors]. *)
Record ParseError : Type := {
  type : string;
  code : string;
  message : string;
  row : option nat;
}.

(** With [header: true] a data row is an object keyed by the header
    names; a column the row lacks is [undefined]. *)
Record ParseResult : Type := {
  data : list (gmap string string);
  errors : list ParseError;
}.

(** [Papa.parse] ends either in [complete(results)] or in
    [error(error)]. *)
Inductive Outcome : Type :=
| complete (results : ParseResult)
| error (e : Backend.Error).

End Papa.

(** * The form row shared by the create and edit pages
      ([interface Activity]) *)

Module FormActivity.

Record t : Type := {
  id : option string;
  name : string;
  quantity : Js.num;
  unit : string;
  rate : Js.num;
  start_date : option string;
  end_date : option string;
  project_id : option string;
}.

(** The object built for [insert]: the row spread, then [project_id],
    [quantity] and [rate] overridden.  [fresh_id] is the edit page's
    [id: undefined]. *)
Definition to_insert (fresh_id : bool) (project : string) (a : t)
  : Activity.Insert :=
  {| Activity.id := if fresh_id then None else id a;
     Activity.project_id := project;
     Activity.name := name a;
     Activity.quantity :=
       Some (Js.or_else (Js.Number_of_num (quantity a)) Js.zero);
     Activity.unit := Some (unit a);
     Activity.rate := Some (Js.or_else (Js.Number_of_num (rate a)) Js.zero);
     Activity.start_date := start_date a;
     Activity.end_date := end_date a |}.

End FormActivity.

(** * The create page, [src/pages/NewProject.tsx] *)

Module NewProject.
Import Backend.
Local Open Scope handler_scope.

Record ProjectFormData : Type := {
  name : string;
  startDate : string;
  endDate : string;
  vendor : string;
  description : string;
  activities : list FormActivity.t;
}.

Definition project_fields (user : Auth.User) (data : ProjectFormData)
  : Project.Fields :=
  {| Project.name := name data;
     Project.start_date := Some (startDate data);
     Project.end_date := Some (endDate data);
     Project.vendor := Some (vendor data);
     Project.description := Some (description data);
     Project.user_id := Some (Auth.id user);
     Project.created_by := None;
     Project.status := Some "ongoing";
     Project.completion_percentage := None |}.

(** Reading [projectData.id] when [data] came back [null]. *)
Definition null_data : Error :=
  {| message := "Cannot read properties of null (reading 'id')" |}.

Definition onSubmit (user : option Auth.User) (data : ProjectFormData)
  : M unit :=
  match user with
  | None =>
      effect (Toast destructive "Error" "User not authenticated.")
  | Some u =>
      effect (SetBusy true) ;;
      finally
        (try_catch
           (r <- insert_project (project_fields u data) ;;
            match error r with
            | Some projectError => throw projectError
            | None =>
                match Backend.data r with
                | None => throw null_data
                | Some projectData =>
                    let newProjectId := Project.id projectData in
                    (if (0 <? length (activities data))%nat then
                       let activitiesToInsert :=
                         map (FormActivity.to_insert false newProjectId)
                             (activities data) in
                       r2 <- insert_activities activitiesToInsert ;;
                       match error r2 with
                       | Some activitiesError => throw activitiesError
                       | None => ret tt
                       end
                     else ret tt) ;;
                    effect (Toast default_variant "Success"
                              "Project created successfully.") ;;
                    effect FormReset ;;
                    effect (NavigateTo ("/projects/" ++ newProjectId))
                end
            end)
           (fun error =>
              effect (Toast destructive "Error creating project"
                        (message_or error "An unexpected error occurred.")) ;;
              effect (ConsoleError "Error creating project:"
                        [message error])))
        (effect (SetBusy false))
  end.

(** One CSV row to one form row. *)
Definition of_csv_row (row : gmap string string) : FormActivity.t :=
  {| FormActivity.id := None;
     FormActivity.name := Js.str_or_empty (row !! "Activity Name");
     FormActivity.quantity :=
       Js.or_else (Js.parseFloat_cell (row !! "Quantity")) Js.zero;
     FormActivity.unit := Js.str_or_empty (row !! "Unit");
     FormActivity.rate :=
       Js.or_else (Js.parseFloat_cell (row !! "Rate")) Js.zero;
     FormActivity.start_date := Js.str_or_undefined (row !! "Start Date");
     FormActivity.end_date := Js.str_or_undefined (row !! "End Date");
     FormActivity.project_id := None |}.

Definition has_name (a : FormActivity.t) : bool :=
  Js.truthy_str (Some (FormActivity.name a)).

Definition newActivities (results : Papa.ParseResult)
  : list FormActivity.t :=
  List.filter has_name (map of_csv_row (Papa.data results)).

(** The field array: [remove()] with no index empties it, [append] adds
    at the end. *)
Definition remove (fields : list FormActivity.t) : list FormActivity.t := [].

Definition append (rows fields : list FormActivity.t)
  : list FormActivity.t := fields ++ rows.

Definition count_text (n : nat) : string := Js.toString_N (N.of_nat n).

(** [handleCsvUpload]: [picked] is [None] when no file was chosen, and
    otherwise what the reader delivers for the chosen file.  The result is
    the field array afterwards and the page events. *)
Definition handleCsvUpload (picked : option Papa.Outcome)
    (fields : list FormActivity.t) : list FormActivity.t * list UiEvent :=
  match picked with
  | None => (fields, [])
  | Some (Papa.complete results) =>
      if (0 <? length (Papa.errors results))%nat then
        (fields,
         [ConsoleError "CSV Parsing Errors:"
            (map Papa.message (Papa.errors results));
          Toast destructive "CSV Parsing Error"
            "Could not parse CSV file. Check console for details."])
      else
        let rows := newActivities results in
        (append rows (remove fields),
         [Toast default_variant "CSV Imported"
            (count_text (length rows) ++ " activities loaded from CSV.")])
  | Some (Papa.error e) =>
      (fields,
       [ConsoleError "CSV Parsing Error:" [message e];
        Toast destructive "CSV Parsing Error"
          (message_or e "An error occurred during CSV parsing.")])
  end.

End NewProject.

(** * The create page validating with zod, [unnamed/part_003] *)

Module NewProjectZod.
Import Backend.
Local Open Scope handler_scope.

(** A [Date] object, kept as the text it was built from; its ISO
    rendering is left symbolic. *)
Inductive JsDate : Type := new_Date (text : string).

Definition toISOString (d : JsDate) : string :=
  match d with new_Date text => text end.

(** A row of [activities] as the form holds it. *)
Record ActivityValues : Type := {
  name : string;
  quantity : option Js.num;
  unit : option string;
  rate : option Js.num;
  start_date : option JsDate;
  end_date : option JsDate;
}.

Record FormValues : Type := {
  project_name : string;
  project_start_date : option JsDate;
  project_end_date : option JsDate;
  vendor : option string;
  description : option string;
  activities : list ActivityValues;
}.

(** [row[col] ? Number(row[col]) : 0] *)
Definition number_or_zero (cell : option string) : Js.num :=
  if Js.truthy_str cell then Js.Number_of_string (default "" cell)
  else Js.zero.

Definition date_or_undefined (cell : option string) : option JsDate :=
  if Js.truthy_str cell then Some (new_Date (default "" cell)) else None.

Definition of_csv_row (row : gmap string string) : ActivityValues :=
  {| name := Js.str_or_empty (row !! "Activity Name");
     quantity := Some (number_or_zero (row !! "Qty"));
     unit := Some (Js.str_or_empty (row !! "Unit"));
     rate := Some (number_or_zero (row !! "Rate"));
     start_date := date_or_undefined (row !! "Start Date");
     end_date := date_or_undefined (row !! "End Date") |}.

Definition has_name (a : ActivityValues) : bool :=
  Js.truthy_str (Some (name a)).

Definition parsedActivities (results : Papa.ParseResult)
  : list ActivityValues :=
  List.filter has_name (map of_csv_row (Papa.data results)).

(** [handleCSVUpload]; [form.setValue('activities', rows)] replaces the
    array. *)
Definition handleCSVUpload (picked : option Papa.Outcome)
    (fields : list ActivityValues) : list ActivityValues * list UiEvent :=
  match picked with
  | None => (fields, [])
  | Some (Papa.complete results) =>
      let rows := parsedActivities results in
      (rows,
       [Toast default_variant "CSV Imported"
          (NewProject.count_text (length rows)
             ++ " activities loaded from CSV.")])
  | Some (Papa.error e) =>
      (fields,
       [ConsoleError "CSV parsing error:" [message e];
        Toast destructive "CSV Import Error" (message e)])
  end.

Definition project_fields (userId : string) (values : FormValues)
  : Project.Fields :=
  {| Project.name := project_name values;
     Project.start_date := toISOString <$> project_start_date values;
     Project.end_date := toISOString <$> project_end_date values;
     Project.vendor := vendor values;
     Project.description := description values;
     Project.user_id := None;
     Project.created_by := Some userId;
     Project.status := None;
     Project.completion_percentage := None |}.

Definition to_insert (projectId : string) (a : ActivityValues)
  : Activity.Insert :=
  {| Activity.id := None;
     Activity.project_id := projectId;
     Activity.name := name a;
     Activity.quantity := quantity a;
     Activity.unit := unit a;
     Activity.rate := rate a;
     Activity.start_date := toISOString <$> start_date a;
     Activity.end_date := toISOString <$> end_date a |}.

Definition getUser : M (option Auth.User) :=
  fun w => (Returned (session w), w).

Definition onSubmit (values : FormValues) : M Datatypes.unit :=
  effect (SetBusy true) ;;
  user <- getUser ;;
  match Auth.id <$> user with
  | None =>
      effect (Toast destructive "Authentication Error"
                "User not logged in.") ;;
      effect (SetBusy false)
  | Some userId =>
      if negb (Js.truthy_str (Some userId)) then
        effect (Toast destructive "Authentication Error"
                  "User not logged in.") ;;
        effect (SetBusy false)
      else
      finally
        (try_catch
           (r <- insert_project (project_fields userId values) ;;
            match error r with
            | Some projectError => throw projectError
            | None =>
                match Backend.data r with
                | None => throw NewProject.null_data
                | Some projectData =>
                    let projectId := Project.id projectData in
                    let activitiesToInsert :=
                      map (to_insert projectId) (activities values) in
                    (if (0 <? length activitiesToInsert)%nat then
                       r2 <- insert_activities activitiesToInsert ;;
                       match error r2 with
                       | Some activitiesError =>
                           delete_project projectId ;;
                           throw activitiesError
                       | None => ret tt
                       end
                     else ret tt) ;;
                    effect (Toast default_variant "Project Created"
                              "Your new project and activities have been saved.") ;;
                    effect (NavigateTo "/dashboard")
                end
            end)
           (fun error =>
              effect (ConsoleError "Error creating project:"
                        [message error]) ;;
              effect (Toast destructive "Failed to Create Project"
                        (message_or error "An unexpected error occurred."))))
        (effect (SetBusy false))
  end.

End NewProjectZod.

(** * The edit page, [src/pages/EditProject.tsx] *)

Module EditProject.
Import Backend.
Local Open Scope handler_scope.

Record ProjectFormData : Type := {
  name : string;
  startDate : string;
  endDate : string;
  vendor : string;
  description : string;
  status : string;
  completion_percentage : Js.num;
  activities : list FormActivity.t;
}.

Definition patch_of (data : ProjectFormData) : Project.Patch :=
  {| Project.new_name := name data;
     Project.new_start_date := startDate data;
     Project.new_end_date := endDate data;
     Project.new_vendor := vendor data;
     Project.new_description := description data;
     Project.new_status := status data;
     Project.new_completion_percentage := completion_percentage data |}.

Definition activitiesToInsert (id : string) (data : ProjectFormData)
  : list Activity.Insert :=
  map (FormActivity.to_insert true id) (activities data).

Definition rethrow (r : Response unit) : M unit :=
  match error r with
  | Some e => throw e
  | None => ret tt
  end.

Definition onSubmit (user : option Auth.User) (id : option string)
    (data : ProjectFormData) : M unit :=
  match user, Js.truthy_str id, id with
  | Some _, true, Some id =>
      effect (SetBusy true) ;;
      finally
        (try_catch
           (r <- update_project id (patch_of data) ;;
            rethrow r ;;
            r1 <- delete_activities_of id ;;
            rethrow r1 ;;
            (if (0 <? length (activities data))%nat then
               r2 <- insert_activities (activitiesToInsert id data) ;;
               rethrow r2
             else ret tt) ;;
            effect (Toast default_variant "Success"
                      "Project updated successfully.") ;;
            effect (NavigateTo ("/projects/" ++ id)))
           (fun error =>
              effect (Toast destructive "Error updating project"
                        (message_or error "An unexpected error occurred.")) ;;
              effect (ConsoleError "Error updating project:"
                        [message error])))
        (effect (SetBusy false))
  | _, _, _ =>
      effect (Toast destructive "Error"
                "User not authenticated or project ID missing.")
  end.

End EditProject.

(** * The Files page, [unnamed/part_005] *)

Module Files.
Import Backend.
Local Open Scope handler_scope.

(** The browser's [File]: its name and its bytes. *)
Record SelectedFile : Type := { name : string; content : string }.

(** [`${projectId}/${Date.now()}_${selectedFile.name}`] *)
Definition filePath (projectId : string) (now : N) (file_name : string)
  : string :=
  projectId ++ "/" ++ Js.toString_N now ++ "_" ++ file_name.

Definition read_now : M N := fun w => (Returned (Backend.now w), w).

Definition handleFileUpload (user : option Auth.User)
    (projectId : option string) (selectedFile : option SelectedFile)
  : M unit :=
  match user, Js.truthy_str projectId, projectId, selectedFile with
  | Some u, true, Some projectId, Some file =>
      effect (SetBusy true) ;;
      t <- read_now ;;
      let filePath := filePath projectId t (name file) in
      finally
        (try_catch
           (r <- storage_upload filePath (content file) ;;
            match error r with
            | Some uploadError => throw uploadError
            | None =>
                let publicUrl := getPublicUrl filePath in
                r1 <- insert_file
                        {| FileRecord.name := name file;
                           FileRecord.url := publicUrl;
                           FileRecord.project_id := projectId;
                           FileRecord.user_id := Auth.id u |} ;;
                match error r1 with
                | Some dbError =>
                    effect (ConsoleError
                              "Failed to save file record, attempting to delete storage file:"
                              [message dbError]) ;;
                    storage_remove [filePath] ;;
                    throw dbError
                | None =>
                    effect (Toast default_variant "Success"
                              "File uploaded successfully.") ;;
                    effect ClearSelectedFile ;;
                    effect (FetchFiles projectId)
                end
            end)
           (fun error =>
              effect (Toast destructive "Error uploading file"
                        (message_or error
                           "An unexpected error occurred during upload.")) ;;
              effect (ConsoleError "File upload error:" [message error])))
        (effect (SetBusy false))
  | _, _, _, _ =>
      effect (Toast destructive "Error"
                "No file selected or project ID missing.")
  end.

(** [handleDeleteFile]; [confirmed] is the answer to [window.confirm]. *)
Definition handleDeleteFile (user : option Auth.User)
    (projectId : option string) (confirmed : bool)
    (fileId filePathInStorage : string) : M unit :=
  match user, Js.truthy_str projectId, projectId with
  | Some _, true, Some projectId =>
      if confirmed then
        try_catch
          (r <- delete_file fileId ;;
           match error r with
           | Some dbError => throw dbError
           | None =>
               r1 <- storage_remove [filePathInStorage] ;;
               match error r1 with
               | Some storageError =>
                   effect (ConsoleError "Error deleting file from storage:"
                             [message storageError])
               | None => ret tt
               end ;;
               effect (Toast default_variant "Success"
                         "File deleted successfully.") ;;
               effect (FetchFiles projectId)
           end)
          (fun error =>
             effect (Toast destructive "Error deleting file"
                       (message_or error
                          "An unexpected error occurred during deletion.")) ;;
             effect (ConsoleError "File deletion error:" [message error]))
      else ret tt
  | _, _, _ =>
      effect (Toast destructive "Error"
                "User not authenticated or project ID missing.")
  end.

(** The path the Delete button hands over:
    [`project-files/${projectId}/${file.name}`] *)
Definition delete_button_path (projectId file_name : string) : string :=
  "project-files/" ++ projectId ++ "/" ++ file_name.

(** The click handler of the Delete button of a listed file. *)
Definition onDeleteClick (user : option Auth.User) (projectId : string)
    (confirmed : bool) (file : FileRecord.Row) : M unit :=
  handleDeleteFile user (Some projectId) confirmed (FileRecord.id file)
    (delete_button_path projectId (FileRecord.name (FileRecord.fields file))).

End Files.

(** * The messages that end a successful run *)

Definition create_toast : Backend.UiEvent :=
  Backend.Toast Backend.default_variant "Success"
    "Project created successfully.".

Definition zod_create_toast : Backend.UiEvent :=
  Backend.Toast Backend.default_variant "Project Created"
    "Your new project and activities have been saved.".

Definition update_toast : Backend.UiEvent :=
  Backend.Toast Backend.default_variant "Success"
    "Project updated successfully.".

Definition upload_toast : Backend.UiEvent :=
  Backend.Toast Backend.default_variant "Success"
    "File uploaded successfully.".

Definition delete_toast : Backend.UiEvent :=
  Backend.Toast Backend.default_variant "Success"
    "File deleted successfully.".

(** * Concrete sessions, forms and backends used in the examples *)

Definition alice : Auth.User :=
  {| Auth.id := "u-1"; Auth.email := "alice@example.com";
     Auth.approved := Some false |}.

Definition signed_in (u : Auth.User) : Auth.AuthContextType :=
  {| Auth.user := Some u; Auth.loading := false |}.

Definition signed_out : Auth.AuthContextType :=
  {| Auth.user := None; Auth.loading := false |}.

Definition sample_ids (n : nat) : string :=
  "id-" ++ Js.toString_N (N.of_nat n).

(** A backend with empty tables and an empty bucket that answers the coming
    requests as scripted. *)
Definition fresh_backend (script : list (option Backend.Error))
  : Backend.World :=
  {| Backend.projects := [];
     Backend.activities := [];
     Backend.files := [];
     Backend.bucket := ∅;
     Backend.ids := sample_ids;
     Backend.next_id := 0;
     Backend.script := script;
     Backend.session := Some alice;
     Backend.now := 1700000000000%N;
     Backend.requests := [];
     Backend.ui := [] |}.

Definition refused : Backend.Error :=
  {| Backend.message := "new row violates row-level security policy" |}.

Definition excavation : FormActivity.t :=
  {| FormActivity.id := None;
     FormActivity.name := "Excavation";
     FormActivity.quantity := Js.Fin 40 0;
     FormActivity.unit := "m3";
     FormActivity.rate := Js.Fin 125 (-1);
     FormActivity.start_date := None;
     FormActivity.end_date := None;
     FormActivity.project_id := None |}.

Definition paving : FormActivity.t :=
  {| FormActivity.id := None;
     FormActivity.name := "Paving";
     FormActivity.quantity := Js.NaN;
     FormActivity.unit := "m2";
     FormActivity.rate := Js.Fin 9 0;
     FormActivity.start_date := Some "2025-03-01";
     FormActivity.end_date := None;
     FormActivity.project_id := None |}.

Definition depot_form : NewProject.ProjectFormData :=
  {| NewProject.name := "Depot";
     NewProject.startDate := "2025-01-01";
     NewProject.endDate := "2025-06-30";
     NewProject.vendor := "Acme";
     NewProject.description := "";
     NewProject.activities := [excavation; paving] |}.

(** A CSV with header [Activity Name,Qty,Unit,Rate] whose second line
    stops after two fields: the reader still delivers both rows, and reports
    the short one in [errors]. *)
Definition short_row_csv : Papa.ParseResult :=
  {| Papa.data :=
       [ {[ "Activity Name" := "Trenching"; "Qty" := "3";
            "Unit" := "m"; "Rate" := "20" ]};
         {[ "Activity Name" := "Backfill"; "Qty" := "5" ]} ];
     Papa.errors :=
       [ {| Papa.type := "FieldMismatch";
            Papa.code := "TooFewFields";
            Papa.message := "Too few fields: expected 4 fields but parsed 2";
            Papa.row := Some 1%nat |} ] |}.

(** A well-formed CSV with a quantity that is not a number, a rate written
    with a decimal comma, and a line without a name. *)
Definition odd_numbers_csv : Papa.ParseResult :=
  {| Papa.data :=
       [ {[ "Activity Name" := "Trenching"; "Qty" := "abc";
            "Quantity" := "abc"; "Unit" := "m"; "Rate" := "12,5" ]};
         {[ "Activity Name" := ""; "Qty" := "4"; "Quantity" := "4";
            "Unit" := "m"; "Rate" := "1" ]} ];
     Papa.errors := [] |}.

(** A backend that already holds the Depot project, with two activities. *)
Definition depot_backend (script : list (option Backend.Error))
  : Backend.World :=
  {| Backend.projects :=
       [ {| Project.id := "p-1";
            Project.fields := NewProject.project_fields alice depot_form |} ];
     Backend.activities :=
       [ {| Activity.row_id := "a-1";
            Activity.columns := FormActivity.to_insert false "p-1" excavation |};
         {| Activity.row_id := "a-2";
            Activity.columns := FormActivity.to_insert false "p-1" paving |} ];
     Backend.files := [];
     Backend.bucket := ∅;
     Backend.ids := sample_ids;
     Backend.next_id := 0;
     Backend.script := script;
     Backend.session := Some alice;
     Backend.now := 1700000000000%N;
     Backend.requests := [];
     Backend.ui := [] |}.

Definition depot_edit : EditProject.ProjectFormData :=
  {| EditProject.name := "Depot (phase 2)";
     EditProject.startDate := "2025-01-01";
     EditProject.endDate := "2025-09-30";
     EditProject.vendor := "Acme";
     EditProject.description := "";
     EditProject.status := "delayed";
     EditProject.completion_percentage := Js.Fin 40 0;
     EditProject.activities :=
       [ {| FormActivity.id := Some "a-1";
            FormActivity.name := "Excavation";
            FormActivity.quantity := Js.Fin 55 0;
            FormActivity.unit := "m3";
            FormActivity.rate := Js.Fin 125 (-1);
            FormActivity.start_date := None;
            FormActivity.end_date := None;
            FormActivity.project_id := Some "p-1" |} ] |}.

Definition plan_pdf : Files.SelectedFile :=
  {| Files.name := "plan.pdf"; Files.content := "%PDF-1.7" |}.

Definition kept_row : NewProjectZod.ActivityValues :=
  {| NewProjectZod.name := "Survey";
     NewProjectZod.quantity := Some (Js.Fin 1 0);
     NewProjectZod.unit := Some "day";
     NewProjectZod.rate := Some (Js.Fin 300 0);
     NewProjectZod.start_date := None;
     NewProjectZod.end_date := None |}.

Definition depot_values : NewProjectZod.FormValues :=
  {| NewProjectZod.project_name := "Depot";
     NewProjectZod.project_start_date := None;
     NewProjectZod.project_end_date := None;
     NewProjectZod.vendor := Some "Acme";
     NewProjectZod.description := Some "";
     NewProjectZod.activities :=
       [ {| NewProjectZod.name := "Excavation";
            NewProjectZod.quantity := Some (Js.Fin 40 0);
            NewProjectZod.unit := Some "m3";
            NewProjectZod.rate := Some (Js.Fin 125 (-1));
            NewProjectZod.start_date := None;
            NewProjectZod.end_date := None |} ] |}.

(** * Following the redirects of [src/App.tsx] *)

Module Navigation.
Import Auth Router.

(** The pieces of a path between its slashes. *)
Fixpoint pieces (s : string) : list string :=
  match s with
  | EmptyString => [EmptyString]
  | String c r =>
      if Ascii.eqb c "/" then EmptyString :: pieces r
      else match pieces r with
           | x :: l => String c x :: l
           | [] => [String c EmptyString]
           end
  end.

(** The segments the router matches a pathname by: its non-empty
    pieces. *)
Definition segments (s : string) : Pathname :=
  List.filter (fun x => negb (String.eqb x "")) (pieces s).


(** Where a request ends up when each [<Navigate to=...>] that [App]
    renders is followed, at most [hops] times. *)
Fixpoint settle (hops : nat) (auth : AuthContextType) (location : Pathname)
  : Element :=
  match App auth location with
  | Navigate to from replace =>
      match hops with
      | O => Navigate to from replace
      | S h => settle h auth (segments to)
      end
  | el => el
  end.

(** An element that asks for no further navigation. *)
Definition at_rest (el : Element) : Prop :=
  match el with
  | Navigate _ _ _ => False
  | _ => True
  end.

End Navigation.

(** * Reading a decimal numeral back *)

Module Decimal.

(** The value of a string of digits read from the left, after [a]. *)
Fixpoint val (s : string) (a : N) : N :=
  match s with
  | EmptyString => a
  | String c r => val r (10 * a + (N_of_ascii c - 48))%N
  end.

Definition digit (c : ascii) : Prop := (48 <= N_of_ascii c <= 57)%N.

End Decimal.

(** * The auth context, [unnamed/part_001] *)

Module AuthProvider.
Import Auth.

(** Of a session the provider reads only [session.user]. *)
Record Session : Type := {
  session_user : User;
  access_token : string;
}.

(** The three pieces of state of [AuthProvider]. *)
Record State : Type := {
  user : option User;
  session : option Session;
  loading : bool;
}.

(** [useState(null)], [useState(null)], [useState(true)] *)
Definition initial : State :=
  {| user := None; session := None; loading := true |}.

Definition setUser (u : option User) (st : State) : State :=
  {| user := u; session := session st; loading := loading st |}.

Definition setSession (s : option Session) (st : State) : State :=
  {| user := user st; session := s; loading := loading st |}.

Definition setLoading (b : bool) (st : State) : State :=
  {| user := user st; session := session st; loading := b |}.

(** The callback given to [onAuthStateChange]; the initial
    [getSession().then(...)] does the same with the session it gets. *)
Definition onAuthStateChange (s : option Session) (st : State) : State :=
  setLoading false (setUser (option_map session_user s) (setSession s st)).

Definition getSession_then (s : option Session) (st : State) : State :=
  setLoading false (setUser (option_map session_user s) (setSession s st)).

(** [data] of an auth response: [{ user, session }]. *)
Record AuthData : Type := {
  data_user : option User;
  data_session : option Session;
}.

Record AuthResponse : Type := {
  data : AuthData;
  error : option Backend.Error;
}.

(** The auth endpoints of the backend, as functions of what the provider
    sends them. *)
Record AuthApi : Type := {
  signInWithPassword : string -> string -> AuthResponse;
  auth_signUp : string -> string -> list (string * string) -> AuthResponse;
  auth_signOut : option Backend.Error;
}.

Definition signIn (api : AuthApi) (email password : string) (st : State)
  : Backend.Outcome AuthData * State :=
  let st := setLoading true st in
  let response := signInWithPassword api email password in
  let st := setLoading false st in
  match error response with
  | Some e => (Backend.Thrown e, st)
  | None =>
      (Backend.Returned (data response),
       setSession (data_session (data response))
         (setUser (data_user (data response)) st))
  end.

Definition signUp (api : AuthApi) (email password : string)
    (options : list (string * string)) (st : State)
  : Backend.Outcome AuthData * State :=
  let st := setLoading true st in
  let response := auth_signUp api email password options in
  let st := setLoading false st in
  match error response with
  | Some e => (Backend.Thrown e, st)
  | None =>
      (Backend.Returned (data response),
       setSession (data_session (data response))
         (setUser (data_user (data response)) st))
  end.

Definition signOut (api : AuthApi) (st : State)
  : Backend.Outcome Datatypes.unit * State :=
  let st := setLoading true st in
  let st := setLoading false st in
  match auth_signOut api with
  | Some e => (Backend.Thrown e, st)
  | None => (Backend.Returned tt, setSession None (setUser None st))
  end.

(** What [useAuth()] hands to the route guard. *)
Definition value (st : State) : AuthContextType :=
  {| Auth.user := user st; Auth.loading := loading st |}.

End AuthProvider.

(** * The login page, [src/pages/Login.tsx] *)

Module Login.
Import Backend AuthProvider.

Definition handleLogin (api : AuthApi) (email password : string)
    (st : State) : list UiEvent * State :=
  match signIn api email password st with
  | (Returned d, st') =>
      match data_user d with
      | Some _ =>
          ([Toast default_variant "Login successful" "Welcome back!";
            NavigateTo "/dashboard"], st')
      | None =>
          ([Toast destructive "Login failed"
              "Authentication failed. Please check your credentials."], st')
      end
  | (Thrown e, st') =>
      ([Toast destructive "Login failed"
          (message_or e "An unexpected error occurred.");
        ConsoleError "Login error:" [message e]], st')
  end.

End Login.

(** * The profile page, second document of [src/pages/Login.tsx] *)

Module Profile.
Import Backend AuthProvider.

(** [handleSignOut]: [await signOut()], with nothing around it. *)
Definition handleSignOut (api : AuthApi) (st : State)
  : Outcome Datatypes.unit * State :=
  signOut api st.

End Profile.
(** * The sign-up page, [src/pages/Signup.tsx] *)

Module Signup.
Import Backend AuthProvider.

(** The values the object [signUp] resolves to can hold. *)
Inductive Value : Type :=
| user_value (u : option Auth.User)
| session_value (s : option Session).

(** The object [signUp] returns, [data] of the auth response: its
    properties are [user] and [session]. *)
Definition as_object (d : AuthData) : gmap string Value :=
  <["user" := user_value (data_user d)]>
    (<["session" := session_value (data_session d)]> ∅).

(** A property that is missing reads as [undefined], here [None]. *)
Definition truthy (v : option Value) : bool :=
  match v with
  | Some (user_value (Some _)) | Some (session_value (Some _)) => true
  | _ => false
  end.

(** [authData.user?.id]: reading [user] off [undefined] or [null] raises
    the engine's [TypeError], [raised]. *)
Definition user_id_of (authData : option Value) (raised : Error)
  : Outcome (option string) :=
  match authData with
  | Some (session_value (Some s)) => Returned (Some (Auth.id (session_user s)))
  | Some (user_value (Some _)) => Returned None
  | _ => Thrown raised
  end.

(** The row for [public.users]. *)
Record UserRecord : Type := {
  id : option string;
  name : string;
  email : string;
  role : string;
  approved : bool;
}.

Inductive Request : Type :=
| InsertUser (r : UserRecord)
| AdminDeleteUser (id : option string).

Record Run : Type := {
  events : list UiEvent;
  requests : list Request;
  state : State;
}.

(** [catch (error) { ... }] *)
Definition caught (error : Error) : list UiEvent :=
  [Toast destructive "Registration failed"
     (message_or error "An unexpected error occurred.");
   ConsoleError "Signup error:" [message error]].

(** [handleSignup]; [raised] is the error the engine raises at the
    statement that builds the row, where a property of [undefined] is read
    (the page does not import [supabase] either, so the reference to it
    fails in the same statement); [dbAnswer] is what the insert into
    [users] resolves to. *)
Definition handleSignup (api : AuthApi) (raised : Error)
    (dbAnswer : option Error) (name email password role : string)
    (st : State) : Run :=
  let '(result, st') :=
    signUp api email password [("name", name); ("role", role)] st in
  let '(evs, reqs) :=
    match result with
    | Thrown e => (caught e, [])
    | Returned d =>
        let authData := as_object d !! "data" in
        let authError := as_object d !! "error" in
        if truthy authError then
          (* a thrown value that has no [message] *)
          (caught {| message := "" |}, [])
        else
          match user_id_of authData raised with
          | Thrown e => (caught e, [])
          | Returned uid =>
              let row := {| id := uid; name := name; email := email;
                            role := "pending"; approved := false |} in
              match dbAnswer with
              | Some dbError =>
                  ((ConsoleError
                      "Failed to create user record, attempting to delete auth user:"
                      [message dbError] :: caught dbError)%list,
                   [InsertUser row; AdminDeleteUser uid])
              | None =>
                  ([Toast default_variant "Registration successful"
                      "Your account is pending admin approval. You will be notified once approved.";
                    NavigateTo "/login"],
                   [InsertUser row])
              end
          end
    end in
  {| events := (SetBusy true :: evs ++ [SetBusy false])%list;
     requests := reqs;
     state := st' |}.

End Signup.
(** * The notifications page, second document of
      [src/pages/EditProject.tsx] *)

Module Notifications.
Import Backend.

Record Notification : Type := {
  id : string;
  user_id : string;
  message : string;
  read : bool;
  created_at : string;
  link : option string;
}.

(** [{ ...n, read: true }] *)
Definition mark (n : Notification) : Notification :=
  {| id := id n; user_id := user_id n; message := message n; read := true;
     created_at := created_at n; link := link n |}.

Inductive Request : Type :=
| UpdateReadById (id : string)          (* [.update({read: true}).eq('id', id)] *)
| UpdateReadOfUser (user_id : string).  (* [.eq('user_id', u).eq('read', false)] *)

(** The table on the server and the list the page holds. *)
Record State : Type := {
  table : list Notification;
  notifications : list Notification;
}.

Record Run : Type := {
  state : State;
  requests : list Request;
  events : list UiEvent;
}.

(** What the backend does with the two updates. *)
Definition update_by_id (i : string) (rows : list Notification)
  : list Notification :=
  map (fun n => if String.eqb (id n) i then mark n else n) rows.

Definition update_unread_of (u : string) (rows : list Notification)
  : list Notification :=
  map (fun n => if String.eqb (user_id n) u && negb (read n)
                then mark n else n) rows.

Definition markAsRead (answer : option Error) (notificationId : string)
    (st : State) : Run :=
  match answer with
  | Some error =>
      {| state := st;
         requests := [UpdateReadById notificationId];
         events :=
           [ConsoleError "Error marking notification as read:"
              [Backend.message error];
            Toast destructive "Error"
              (message_or error "Failed to mark notification as read.")] |}
  | None =>
      {| state :=
           {| table := update_by_id notificationId (table st);
              notifications :=
                map (fun n => if String.eqb (id n) notificationId
                              then mark n else n) (notifications st) |};
         requests := [UpdateReadById notificationId];
         events := [] |}
  end.

Definition markAllAsRead (user : option Auth.User) (answer : option Error)
    (st : State) : Run :=
  match user with
  | None => {| state := st; requests := []; events := [] |}
  | Some u =>
      match answer with
      | Some error =>
          {| state := st;
             requests := [UpdateReadOfUser (Auth.id u)];
             events :=
               [ConsoleError "Error marking all notifications as read:"
                  [Backend.message error];
                Toast destructive "Error"
                  (message_or error
                     "Failed to mark all notifications as read.")] |}
      | None =>
          {| state :=
               {| table := update_unread_of (Auth.id u) (table st);
                  notifications := map mark (notifications st) |};
             requests := [UpdateReadOfUser (Auth.id u)];
             events :=
               [Toast default_variant "Success"
                  "All notifications marked as read."] |}
      end
  end.

(** The rows [fetchNotifications] asks for: those of the user. *)
Definition of_user (u : string) (rows : list Notification)
  : list Notification :=
  List.filter (fun n => String.eqb (user_id n) u) rows.

(** The page shows the user's rows of the table, in some order. *)
Definition in_step (u : string) (st : State) : Prop :=
  Permutation (notifications st) (of_user u (table st)).

Definition unread (rows : list Notification) : list Notification :=
  List.filter (fun n => negb (read n)) rows.

End Notifications.

(** * The user administration page, [src/pages/UserManagement.tsx] *)

Module UserManagement.
Import Backend.

Inductive Role : Type := pending | admin | manager | vendor | employee.

Definition role_name (r : Role) : string :=
  match r with
  | pending => "pending"
  | admin => "admin"
  | manager => "manager"
  | vendor => "vendor"
  | employee => "employee"
  end.

Record AppUser : Type := {
  id : string;
  name : string;
  email : string;
  role : Role;
  approved : bool;
  created_at : string;
}.

(** [{ ...u, approved: approved }] *)
Definition with_approved (b : bool) (u : AppUser) : AppUser :=
  {| id := id u; name := name u; email := email u; role := role u;
     approved := b; created_at := created_at u |}.

(** [{ ...u, role: newRole }] *)
Definition with_role (r : Role) (u : AppUser) : AppUser :=
  {| id := id u; name := name u; email := email u; role := r;
     approved := approved u; created_at := created_at u |}.

Inductive Request : Type :=
| UpdateApproved (id : string) (approved : bool)
| UpdateRole (id : string) (role : Role).

(** The [users] table on the server and the list the page holds. *)
Record State : Type := {
  table : list AppUser;
  users : list AppUser;
}.

Record Run : Type := {
  state : State;
  requests : list Request;
  events : list UiEvent;
}.

(** [.update(change).eq('id', userId)] on the server, and the same change
    on the list of the page. *)
Definition update_by_id (userId : string) (change : AppUser -> AppUser)
    (rows : list AppUser) : list AppUser :=
  map (fun u => if String.eqb (id u) userId then change u else u) rows.

Definition handleApproveDeny (answer : option Error) (userId : string)
    (approved : bool) (st : State) : Run :=
  match answer with
  | Some error =>
      {| state := st;
         requests := [UpdateApproved userId approved];
         events :=
           [ConsoleError "Error updating user approval status:"
              [message error];
            Toast destructive "Error"
              (message_or error "Failed to update user status.")] |}
  | None =>
      {| state :=
           {| table := update_by_id userId (with_approved approved) (table st);
              users :=
                map (fun u => if String.eqb (id u) userId
                              then with_approved approved u else u)
                  (users st) |};
         requests := [UpdateApproved userId approved];
         events :=
           [Toast default_variant "Success"
              ("User " ++ (if approved then "approved" else "denied")
                 ++ ".")] |}
  end.

Definition handleRoleChange (answer : option Error) (userId : string)
    (newRole : Role) (st : State) : Run :=
  match answer with
  | Some error =>
      {| state := st;
         requests := [UpdateRole userId newRole];
         events :=
           [ConsoleError "Error updating user role:" [message error];
            Toast destructive "Error"
              (message_or error "Failed to update user role.")] |}
  | None =>
      {| state :=
           {| table := update_by_id userId (with_role newRole) (table st);
              users :=
                map (fun u => if String.eqb (id u) userId
                              then with_role newRole u else u) (users st) |};
         requests := [UpdateRole userId newRole];
         events :=
           [Toast default_variant "Success"
              ("User role updated to " ++ role_name newRole ++ ".")] |}
  end.

(** The page shows the rows of the table, in some order. *)
Definition in_step (st : State) : Prop :=
  Permutation (users st) (table st).

End UserManagement.

(** * The settings page, [src/pages/Settings.tsx] *)

Module Settings.
Import Backend.

(** An element of a field array: [{ value }]. *)
Record Item : Type := { value : string }.

Record SettingsFormData : Type := {
  allowed_file_types : string;
  project_types : list Item;
  vendor_list : list Item;
}.

(** The columns of the settings row; a column can be null. *)
Record Row : Type := {
  row_allowed_file_types : option string;
  row_project_types : option (list string);
  row_vendor_list : option (list string);
}.

(** The object [onSubmit] sends. *)
Record Columns : Type := {
  new_allowed_file_types : string;
  new_project_types : list string;
  new_vendor_list : list string;
}.

(** Of an error of this page the code is read too. *)
Record CodedError : Type := { code : string; error : Error }.

Definition defaultValues : SettingsFormData :=
  {| allowed_file_types := ".pdf,.doc,.docx,.xls,.xlsx,.csv,.jpg,.png";
     project_types := [];
     vendor_list := [] |}.

(** [(column || []).map(val => ({ value: val }))] *)
Definition to_items (column : option (list string)) : list Item :=
  map (fun val => {| value := val |}) (default [] column).

(** [items.map(item => item.value).filter(Boolean)] *)
Definition to_column (items : list Item) : list string :=
  List.filter (fun s => Js.truthy_str (Some s)) (map value items).

(** What [fetchSettings] resets the form to when a row came back. *)
Definition form_of (data : Row) : SettingsFormData :=
  {| allowed_file_types :=
       match row_allowed_file_types data with
       | Some s =>
           if Js.truthy_str (Some s) then s
           else ".pdf,.doc,.docx,.xls,.xlsx,.csv,.jpg,.png"
       | None => ".pdf,.doc,.docx,.xls,.xlsx,.csv,.jpg,.png"
       end;
     project_types := to_items (row_project_types data);
     vendor_list := to_items (row_vendor_list data) |}.

(** [fetchSettings]: the form afterwards and the page events. *)
Definition fetchSettings (data : option Row) (answer : option CodedError)
    (form : SettingsFormData) : SettingsFormData * list UiEvent :=
  match answer with
  | Some e =>
      if negb (String.eqb (code e) "PGRST116") then
        (form,
         [SetBusy true;
          ConsoleError "Error fetching settings:" [message (error e)];
          Toast destructive "Error"
            (message_or (error e) "Failed to load settings.");
          SetBusy false])
      else
        (match data with Some row => form_of row | None => form end,
         [SetBusy true; SetBusy false])
  | None =>
      (match data with Some row => form_of row | None => form end,
       [SetBusy true; SetBusy false])
  end.

Definition settingsToUpdate (data : SettingsFormData) : Columns :=
  {| new_allowed_file_types := allowed_file_types data;
     new_project_types := to_column (project_types data);
     new_vendor_list := to_column (vendor_list data) |}.

Inductive Request : Type :=
| UpdateSettings (id : string) (c : Columns)
| InsertSettings (id : string) (c : Columns).

Definition caught (e : Error) : list UiEvent :=
  [Toast destructive "Error updating settings"
     (message_or e "An unexpected error occurred.");
   ConsoleError "Settings update error:" [message e]].

Definition saved : list UiEvent :=
  [Toast default_variant "Success" "Settings updated successfully."].

(** [onSubmit]; [updateAnswer] and [insertAnswer] are what the two
    requests resolve to. *)
Definition onSubmit (user : option Auth.User)
    (updateAnswer insertAnswer : option CodedError)
    (data : SettingsFormData) : list Request * list UiEvent :=
  match user with
  | None => ([], [Toast destructive "Error" "Access Denied."])
  | Some _ =>
      let c := settingsToUpdate data in
      let '(reqs, evs) :=
        match updateAnswer with
        | Some e =>
            if String.eqb (code e) "PGRST116" then
              match insertAnswer with
              | Some insertError =>
                  ([UpdateSettings "global_settings" c;
                    InsertSettings "global_settings" c],
                   caught (error insertError))
              | None =>
                  ([UpdateSettings "global_settings" c;
                    InsertSettings "global_settings" c], saved)
              end
            else ([UpdateSettings "global_settings" c], caught (error e))
        | None => ([UpdateSettings "global_settings" c], saved)
        end in
      (reqs, (SetBusy true :: evs ++ [SetBusy false])%list)
  end.

End Settings.
(** * The earlier router, [unnamed/part_000] *)

Module LegacyApp.
Import Auth.

Inductive Page : Type := AuthPage | DashboardPage.

Inductive Element : Type :=
| NoMatch                          (* no route matches: nothing is rendered *)
| Loading                          (* [<div>Loading...</div>] *)
| Navigate (to : string) (replace : bool)
| Display (p : Page).

(** [ProtectedRoute({ children })] *)
Definition ProtectedRoute (auth : AuthContextType) (children : Element)
  : Element :=
  if loading auth then Loading
  else match user auth with
       | None => Navigate "/auth" true
       | Some _ => children
       end.

(** [AuthRedirect()] *)
Definition AuthRedirect (auth : AuthContextType) : Element :=
  if loading auth then Loading
  else match user auth with
       | Some _ => Navigate "/dashboard" true
       | None => Navigate "/auth" true
       end.

(** The three routes of [App]; no path matches two of them. *)
Definition App (auth : AuthContextType) (location : Router.Pathname)
  : Element :=
  if Router.pattern_matches [Router.Static "auth"] location
  then Display AuthPage
  else if Router.pattern_matches [Router.Static "dashboard"] location
  then ProtectedRoute auth (Display DashboardPage)
  else if Router.pattern_matches [] location
  then AuthRedirect auth
  else NoMatch.

(** Following each [<Navigate>], at most [hops] times. *)
Fixpoint settle (hops : nat) (auth : AuthContextType)
    (location : Router.Pathname) : Element :=
  match App auth location with
  | Navigate to replace =>
      match hops with
      | O => Navigate to replace
      | S h => settle h auth (Navigation.segments to)
      end
  | el => el
  end.

End LegacyApp.
(** * Sessions, answers and rows used in the examples of these pages *)

Definition alice_session : AuthProvider.Session :=
  {| AuthProvider.session_user := alice;
     AuthProvider.access_token := "token-1" |}.

(** A backend that accepts every auth request: it signs alice in, and
    answers a sign-up with the new user and no session yet. *)
Definition accepting_auth : AuthProvider.AuthApi :=
  {| AuthProvider.signInWithPassword := fun _ _ =>
       {| AuthProvider.data :=
            {| AuthProvider.data_user := Some alice;
               AuthProvider.data_session := Some alice_session |};
          AuthProvider.error := None |};
     AuthProvider.auth_signUp := fun _ _ _ =>
       {| AuthProvider.data :=
            {| AuthProvider.data_user := Some alice;
               AuthProvider.data_session := None |};
          AuthProvider.error := None |};
     AuthProvider.auth_signOut := None |}.

(** * Observations on a run *)

(** The tables and the bucket are what they were. *)
Definition same_data (w w' : Backend.World) : Prop :=
  Backend.projects w' = Backend.projects w
  /\ Backend.activities w' = Backend.activities w
  /\ Backend.files w' = Backend.files w
  /\ Backend.bucket w' = Backend.bucket w.

(** How a handler ended. *)
Definition returned {A} (m : Backend.M A) (w : Backend.World) : Prop :=
  exists a, fst (m w) = Backend.Returned a.

(** Page events that switch the busy flag on first and off last, and
    nowhere in between. *)
Definition brackets (evs : list Backend.UiEvent) : Prop :=
  exists middle,
    evs = (Backend.SetBusy true :: middle ++ [Backend.SetBusy false])%list
    /\ ~ In (Backend.SetBusy true) middle
    /\ ~ In (Backend.SetBusy false) middle.

(** A column that holds a number other than [NaN]. *)
Definition numeric (x : option Js.num) : Prop :=
  exists v, x = Some v /\ Js.isNaN v = false.

(** * Properties *)

Local Open Scope list_scope.

Example parseFloat_samples :
  Js.parseFloat "12.5" = Js.Fin 125 (-1) /\
  Js.parseFloat "  7abc" = Js.Fin 7 0 /\
  Js.parseFloat "abc" = Js.NaN /\
  Js.parseFloat "" = Js.NaN /\
  Js.parseFloat "-.5e3" = Js.Fin (-5) 2 /\
  Js.parseFloat "1e" = Js.Fin 1 0 /\
  Js.parseFloat_cell None = Js.NaN.
Proof. repeat split; reflexivity. Qed.

Example Number_samples :
  Js.Number_of_string "12.5" = Js.Fin 125 (-1) /\
  Js.Number_of_string " 42 " = Js.Fin 42 0 /\
  Js.Number_of_string "7abc" = Js.NaN /\
  Js.Number_of_string "abc" = Js.NaN /\
  Js.Number_of_string "" = Js.zero /\
  Js.Number_of_string "0x1f" = Js.Fin 31 0 /\
  Js.Number_of_string "1e" = Js.NaN.
Proof. repeat split; reflexivity. Qed.

Example toString_samples :
  Js.toString_N 0 = "0" /\ Js.toString_N 1700000000000 = "1700000000000".
Proof. split; reflexivity. Qed.

(** ** The route guard *)

Section Guard.
Import Auth Router.

Lemma best_match_In (bs : list Branch) (path : Pathname) (b : Branch) :
  best_match bs path = Some b -> In b bs.
Proof.
  revert b. induction bs as [|b0 bs IH]; intros b; simpl; [discriminate|].
  destruct (pattern_matches (pattern_of b0) path).
  - destruct (best_match bs path) as [b'|].
    + destruct (score (pattern_of b') <=? score (pattern_of b0))%nat;
        intros [= <-]; auto.
    + intros [= <-]; auto.
  - intros H. right. auto.
Qed.

Lemma best_match_matches (bs : list Branch) (path : Pathname) (b : Branch) :
  best_match bs path = Some b -> pattern_matches (pattern_of b) path = true.
Proof.
  revert b. induction bs as [|b0 bs IH]; intros b; simpl; [discriminate|].
  destruct (pattern_matches (pattern_of b0) path) eqn:E0.
  - destruct (best_match bs path) as [b'|].
    + destruct (score (pattern_of b') <=? score (pattern_of b0))%nat;
        intros [= <-]; auto.
    + intros [= <-]; auto.
  - auto.
Qed.

Lemma unauthenticated_inv (auth : AuthContextType) :
  state_of auth = unauthenticated -> loading auth = false /\ user auth = None.
Proof.
  unfold state_of. destruct (loading auth); [discriminate|].
  destruct (user auth); [discriminate|]. auto.
Qed.

Lemma authenticated_inv (auth : AuthContextType) :
  state_of auth = authenticated ->
  loading auth = false /\ exists u, user auth = Some u.
Proof.
  unfold state_of. destruct (loading auth); [discriminate|].
  destruct (user auth) as [u|]; [|discriminate]. eauto.
Qed.

Lemma protected_redirects_to_login
    (auth : AuthContextType) (location : Pathname) (b : Branch) :
  state_of auth = unauthenticated ->
  matchRoutes location = Some b ->
  is_protected b = true ->
  App auth location
  = Navigate "/login" (Some (pathname_string location)) false.
Proof.
  intros Hs Hm Hp. apply unauthenticated_inv in Hs as [Hl Hu].
  unfold App. rewrite Hm. destruct b as [p el|p pg]; [discriminate|].
  simpl. unfold ProtectedRoute, AuthenticatedLayout. now rewrite Hl, Hu.
Qed.

Lemma login_branch_is_top (location : Pathname) (b : Branch) :
  matchRoutes location = Some b ->
  requested_page b = Some Login ->
  b = Top [Static "login"] (PageElement Login).
Proof.
  intros Hm Hr. apply best_match_In in Hm. unfold routes in Hm.
  simpl in Hm.
  repeat (destruct Hm as [<- | Hm]; [try discriminate Hr; try reflexivity|]).
  destruct Hm.
Qed.

End Guard.

Example route_samples :
  Router.matchRoutes ["projects"; "new"]
  = Some (Router.UnderProtected
            [Router.Static "projects"; Router.Static "new"] Router.NewProject)
  /\ Router.matchRoutes ["projects"; "42"]
     = Some (Router.UnderProtected
               [Router.Static "projects"; Router.Param "id"]
               Router.ProjectDetail)
  /\ Router.matchRoutes ["nowhere"] = None
  /\ Router.App signed_out ["projects"; "42"; "files"]
     = Router.Navigate "/login" (Some "/projects/42/files") false
  /\ Router.App (signed_in alice) ["dashboard"] = Router.Nothing
  /\ Router.App signed_out [] = Router.Navigate "/dashboard" None true.
Proof. repeat split; reflexivity. Qed.

(** Static segments are matched without regard to case, parameters as
    they are written. *)
Example route_case_samples :
  Router.lowercase "Projects-NEW_1" = "projects-new_1"
  /\ Router.matchRoutes ["LOGIN"]
     = Some (Router.Top [Router.Static "login"]
               (Router.PageElement Router.Login))
  /\ Router.matchRoutes ["Projects"; "New"]
     = Some (Router.UnderProtected
               [Router.Static "projects"; Router.Static "new"]
               Router.NewProject)
  /\ Router.matchRoutes ["projects"; "News"]
     = Some (Router.UnderProtected
               [Router.Static "projects"; Router.Param "id"]
               Router.ProjectDetail).
Proof. repeat split; reflexivity. Qed.

(** C3, as stated, fails: with a signed-in user a request for the login
    view is matched by the login route, which is outside the guard, and the
    login page itself is rendered; no redirect of any kind is produced. *)
Lemma login_request_not_redirected_when_signed_in :
  Auth.state_of (signed_in alice) = Auth.authenticated
  /\ (Router.requested_page <$> Router.matchRoutes ["login"])
     = Some (Some Router.Login)
  /\ Router.App (signed_in alice) ["login"] = Router.PageElement Router.Login
  /\ forall to from replace,
       Router.App (signed_in alice) ["login"]
       <> Router.Navigate to from replace.
Proof. repeat split; try reflexivity. intros to from replace; discriminate. Qed.

(** C3, amended: in the unauthenticated state every request for a protected
    view is answered by a redirect to the login view; in the authenticated
    state a request for the login view renders the login view itself; the
    redirect to the dashboard view is what the root path is mapped to, in
    every state of the gate. *)
Theorem gate_redirects :
  (forall auth location b,
      Auth.state_of auth = Auth.unauthenticated ->
      Router.matchRoutes location = Some b ->
      Router.is_protected b = true ->
      Router.App auth location
      = Router.Navigate "/login"
          (Some (Router.pathname_string location)) false)
  /\ (forall auth location b,
         Auth.state_of auth = Auth.authenticated ->
         Router.matchRoutes location = Some b ->
         Router.requested_page b = Some Router.Login ->
         Router.App auth location = Router.PageElement Router.Login)
  /\ (forall auth,
         Router.App auth [] = Router.Navigate "/dashboard" None true).
Proof.
  split; [|split].
  - exact protected_redirects_to_login.
  - intros auth location b _ Hm Hr.
    pose proof (login_branch_is_top location b Hm Hr) as ->.
    unfold Router.App. now rewrite Hm.
  - reflexivity.
Qed.

Lemma gate_redirects_witness :
  Router.App signed_out ["projects"; "7"; "edit"]
  = Router.Navigate "/login" (Some "/projects/7/edit") false
  /\ Router.App (signed_in alice) ["login"] = Router.PageElement Router.Login.
Proof.
  split.
  - apply (proj1 gate_redirects signed_out ["projects"; "7"; "edit"]
             (Router.UnderProtected
                [Router.Static "projects"; Router.Param "id";
                 Router.Static "edit"] Router.EditProject));
      reflexivity.
  - apply (proj1 (proj2 gate_redirects) (signed_in alice) ["login"]
             (Router.Top [Router.Static "login"]
                (Router.PageElement Router.Login)));
      reflexivity.
Defined.

(** C4: the guard never reads the approved flag.  Two sessions whose users
    differ at most in that flag get the same element from the guard, for
    every request and every guarded content, and so the same page from
    [App]; and a signed-in user whose flag is false is let through on every
    protected route: the guard hands back exactly the content it guards. *)
Theorem gate_ignores_approved :
  (forall a1 a2 u1 u2 location children,
      Auth.loading a1 = Auth.loading a2 ->
      Auth.user a1 = Some u1 ->
      Auth.user a2 = Some u2 ->
      Auth.set_approved None u1 = Auth.set_approved None u2 ->
      Router.AuthenticatedLayout a1 location children
      = Router.AuthenticatedLayout a2 location children
      /\ Router.App a1 location = Router.App a2 location)
  /\ (forall auth u location b children,
         Auth.state_of auth = Auth.authenticated ->
         Auth.user auth = Some u ->
         Auth.approved u = Some false ->
         Router.matchRoutes location = Some b ->
         Router.is_protected b = true ->
         Router.ProtectedRoute auth location children = children
         /\ Router.App auth location
            = Router.ProtectedRoute auth location Router.Nothing).
Proof.
  split.
  - intros a1 a2 u1 u2 location children Hl H1 H2 _.
    assert (Hlay : forall c,
               Router.AuthenticatedLayout a1 location c
               = Router.AuthenticatedLayout a2 location c).
    { intros c. unfold Router.AuthenticatedLayout.
      now rewrite Hl, H1, H2. }
    split; [apply Hlay|].
    unfold Router.App. destruct (Router.matchRoutes location) as [b|]; auto.
    destruct b; simpl; [reflexivity | apply Hlay].
  - intros auth u location b children Hs Hu _ Hm Hp.
    apply authenticated_inv in Hs as [Hl _].
    split.
    + unfold Router.ProtectedRoute, Router.AuthenticatedLayout.
      now rewrite Hl, Hu.
    + unfold Router.App. rewrite Hm. destruct b; [discriminate|reflexivity].
Qed.

Lemma gate_ignores_approved_witness :
  (Router.AuthenticatedLayout (signed_in alice) ["reports"]
     (Router.PageElement Router.Reports)
   = Router.AuthenticatedLayout
       (signed_in (Auth.set_approved (Some true) alice)) ["reports"]
       (Router.PageElement Router.Reports)
   /\ Router.App (signed_in alice) ["reports"]
      = Router.App (signed_in (Auth.set_approved (Some true) alice))
          ["reports"])
  /\ (Router.ProtectedRoute (signed_in alice) ["reports"]
        (Router.PageElement Router.Reports)
      = Router.PageElement Router.Reports
      /\ Router.App (signed_in alice) ["reports"]
         = Router.ProtectedRoute (signed_in alice) ["reports"] Router.Nothing).
Proof.
  split.
  - apply (proj1 gate_ignores_approved (signed_in alice)
             (signed_in (Auth.set_approved (Some true) alice))
             alice (Auth.set_approved (Some true) alice));
      reflexivity.
  - apply (proj2 gate_ignores_approved (signed_in alice) alice ["reports"]
             (Router.UnderProtected [Router.Static "reports"] Router.Reports));
      reflexivity.
Defined.

(** ** Creating a project *)

Import Backend.

Lemma stored_columns (g : nat -> string) (n : nat)
    (rows : list Activity.Insert) :
  map Activity.columns (stored g n rows) = rows.
Proof.
  revert n. induction rows as [|r rows IH]; intros n; simpl; [reflexivity|].
  destruct (Activity.id r); simpl; now rewrite IH.
Qed.

Lemma stored_length (g : nat -> string) (n : nat)
    (rows : list Activity.Insert) :
  length (stored g n rows) = length rows.
Proof. rewrite <- (stored_columns g n rows) at 2. now rewrite length_map. Qed.

(** Rows whose columns are the objects built for one project all refer to
    that project. *)
Lemma rows_refer_to_project {A} (f : string -> A -> Activity.Insert)
    (pid : string) (l : list A) (rows : list Activity.Row) :
  (forall a, Activity.project_id (f pid a) = pid) ->
  map Activity.columns rows = map (f pid) l ->
  length rows = length l
  /\ Forall (fun r => Activity.project_id (Activity.columns r) = pid) rows.
Proof.
  intros Hf Hmap. split.
  - rewrite <- (length_map Activity.columns rows), Hmap. apply length_map.
  - apply List.Forall_forall. intros r Hin.
    apply (in_map Activity.columns) in Hin. rewrite Hmap in Hin.
    apply in_map_iff in Hin as (a & <- & _). apply Hf.
Qed.

(** A page event that is not among those a run added. *)
Ltac no_such_event H :=
  simpl in H; repeat (destruct H as [H|H]; [discriminate H|]); destruct H.

Lemma create_success_delta (u : Auth.User) (data : NewProject.ProjectFormData)
    (w : World) :
  let w' := run (NewProject.onSubmit (Some u) data) w in
  In create_toast (new_events w w') ->
  exists row rows,
    projects w' = projects w ++ [row]
    /\ Project.fields row = NewProject.project_fields u data
    /\ activities w' = activities w ++ rows
    /\ map Activity.columns rows
       = map (FormActivity.to_insert false (Project.id row))
           (NewProject.activities data).
Proof.
  intros w'. subst w'.
  unfold create_toast, new_events, run, NewProject.onSubmit.
  destruct w as [ps acts fs bk g n sc se nw rq ui0].
  destruct (NewProject.activities data) as [|a l] eqn:Ha;
    destruct sc as [|[e|] [|[e2|] rest]];
    cbn -[drop String.append stored]; rewrite <- ?app_assoc, ?drop_app_length;
    intros H; try (no_such_event H);
    eexists; eexists; (split; [reflexivity|]); (split; [reflexivity|]);
    (split; [try reflexivity; symmetry; apply app_nil_r|]);
    try reflexivity; apply stored_columns.
Qed.

Lemma zod_create_success_delta (values : NewProjectZod.FormValues)
    (w : World) :
  let w' := run (NewProjectZod.onSubmit values) w in
  In zod_create_toast (new_events w w') ->
  exists u row rows,
    session w = Some u
    /\ projects w' = projects w ++ [row]
    /\ Project.fields row = NewProjectZod.project_fields (Auth.id u) values
    /\ activities w' = activities w ++ rows
    /\ map Activity.columns rows
       = map (NewProjectZod.to_insert (Project.id row))
           (NewProjectZod.activities values).
Proof.
  intros w'. subst w'.
  unfold zod_create_toast, new_events, run, NewProjectZod.onSubmit.
  destruct w as [ps acts fs bk g n sc [[[|c i] em ap]|] nw rq ui0];
    [cbn -[drop String.append stored]; rewrite <- ?app_assoc, ?drop_app_length;
     intros H; no_such_event H
    | | cbn -[drop String.append stored];
        rewrite <- ?app_assoc, ?drop_app_length; intros H; no_such_event H].
  destruct (NewProjectZod.activities values) as [|a l] eqn:Ha;
    destruct sc as [|[e|] [|[e2|] [|[e3|] rest]]];
    cbn -[drop String.append stored]; rewrite <- ?app_assoc, ?drop_app_length;
    intros H; try (no_such_event H);
    eexists; eexists; eexists; (split; [reflexivity|]);
    (split; [reflexivity|]); (split; [reflexivity|]);
    (split; [try reflexivity; symmetry; apply app_nil_r|]);
    try reflexivity; apply stored_columns.
Qed.

(** The success message is reached whenever the backend accepts the
    requests. *)
Lemma create_succeeds (u : Auth.User) (data : NewProject.ProjectFormData)
    (w : World) (rest : list (option Error)) :
  script w = None :: None :: rest ->
  In create_toast (new_events w (run (NewProject.onSubmit (Some u) data) w)).
Proof.
  intros H. destruct w as [ps acts fs bk g n sc se nw rq ui0].
  simpl in H; subst sc.
  unfold create_toast, new_events, run, NewProject.onSubmit.
  destruct (NewProject.activities data) as [|a l];
    cbn -[drop String.append stored]; rewrite <- ?app_assoc, ?drop_app_length;
    simpl; auto.
Qed.

Lemma zod_create_succeeds (values : NewProjectZod.FormValues) (w : World)
    (u : Auth.User) (rest : list (option Error)) :
  session w = Some u ->
  Js.truthy_str (Some (Auth.id u)) = true ->
  script w = None :: None :: rest ->
  In zod_create_toast (new_events w (run (NewProjectZod.onSubmit values) w)).
Proof.
  intros Hs Hid H. destruct w as [ps acts fs bk g n sc se nw rq ui0].
  simpl in H, Hs; subst sc se.
  unfold zod_create_toast, new_events, run, NewProjectZod.onSubmit.
  destruct u as [[|c i] em ap]; [discriminate Hid|].
  destruct (NewProjectZod.activities values) as [|a l];
    cbn -[drop String.append stored]; rewrite <- ?app_assoc, ?drop_app_length;
    simpl; auto.
Qed.

(** C2: a submission the backend accepts ends in the success message, and
    whenever a submission ends in the success message, exactly one project
    row was added, and the activity rows added are as many as the rows of
    the form, each carrying the id of that project; this holds for both
    versions of the create page. *)
Theorem create_success_inserts :
  (forall u data w rest,
      script w = None :: None :: rest ->
      In create_toast
        (new_events w (run (NewProject.onSubmit (Some u) data) w)))
  /\ (forall values w u rest,
         session w = Some u ->
         Js.truthy_str (Some (Auth.id u)) = true ->
         script w = None :: None :: rest ->
         In zod_create_toast
           (new_events w (run (NewProjectZod.onSubmit values) w)))
  /\ (forall u data w,
         let w' := run (NewProject.onSubmit (Some u) data) w in
         In create_toast (new_events w w') ->
         exists row rows,
           projects w' = projects w ++ [row]
           /\ activities w' = activities w ++ rows
           /\ length rows = length (NewProject.activities data)
           /\ Forall (fun r => Activity.project_id (Activity.columns r)
                               = Project.id row) rows)
  /\ (forall values w,
         let w' := run (NewProjectZod.onSubmit values) w in
         In zod_create_toast (new_events w w') ->
         exists row rows,
           projects w' = projects w ++ [row]
           /\ activities w' = activities w ++ rows
           /\ length rows = length (NewProjectZod.activities values)
           /\ Forall (fun r => Activity.project_id (Activity.columns r)
                               = Project.id row) rows).
Proof.
  split; [exact create_succeeds|].
  split; [exact zod_create_succeeds|].
  split.
  - intros u data w w' H.
    destruct (create_success_delta u data w H) as (row & rows & Hp & _ & Ha & Hc).
    exists row, rows. split; [exact Hp|]. split; [exact Ha|].
    apply (rows_refer_to_project (FormActivity.to_insert false)); auto.
  - intros values w w' H.
    destruct (zod_create_success_delta values w H)
      as (u & row & rows & _ & Hp & _ & Ha & Hc).
    exists row, rows. split; [exact Hp|]. split; [exact Ha|].
    apply (rows_refer_to_project NewProjectZod.to_insert); auto.
Qed.

Lemma create_success_inserts_witness :
  (let w := fresh_backend [None; None] in
   let w' := run (NewProject.onSubmit (Some alice) depot_form) w in
   In create_toast (new_events w w')
   /\ exists row rows,
        projects w' = projects w ++ [row]
        /\ activities w' = activities w ++ rows
        /\ length rows = 2%nat
        /\ Forall (fun r => Activity.project_id (Activity.columns r)
                            = Project.id row) rows)
  /\ (let w := depot_backend [None; None] in
      let w' := run (NewProjectZod.onSubmit depot_values) w in
      In zod_create_toast (new_events w w')
      /\ exists row rows,
           projects w' = projects w ++ [row]
           /\ activities w' = activities w ++ rows
           /\ length rows = 1%nat
           /\ Forall (fun r => Activity.project_id (Activity.columns r)
                               = Project.id row) rows).
Proof.
  destruct create_success_inserts as (R1 & R2 & S1 & S2).
  split.
  - intros w w'.
    assert (H : In create_toast (new_events w w'))
      by exact (R1 alice depot_form w [] eq_refl).
    split; [exact H|]. exact (S1 alice depot_form w H).
  - intros w w'.
    assert (H : In zod_create_toast (new_events w w'))
      by exact (R2 depot_values w alice [] eq_refl eq_refl eq_refl).
    split; [exact H|]. exact (S2 depot_values w H).
Defined.

Example zod_create_success_sample :
  let w := depot_backend [None; None] in
  let w' := run (NewProjectZod.onSubmit depot_values) w in
  In zod_create_toast (new_events w w')
  /\ map Project.id (projects w') = ["p-1"; "id-0"]
  /\ map (fun a => (Activity.row_id a,
                    Activity.project_id (Activity.columns a)))
       (activities w')
     = [("a-1", "p-1"); ("a-2", "p-1"); ("id-1", "id-0")].
Proof. vm_compute. repeat split. auto. Qed.

(** [src/pages/NewProject.tsx] sends no delete at all. *)
Lemma create_never_deletes (user : option Auth.User)
    (data : NewProject.ProjectFormData) (w : World) (id : string) :
  ~ In (DeleteProject id)
      (new_requests w (run (NewProject.onSubmit user data) w)).
Proof.
  unfold new_requests, run, NewProject.onSubmit.
  destruct w as [ps acts fs bk g n sc se nw rq ui0].
  destruct user as [u|];
    [|cbn -[drop]; rewrite drop_all; intros []].
  destruct (NewProject.activities data) as [|a l];
    destruct sc as [|[e|] [|[e2|] rest]];
    cbn -[drop String.append stored];
    rewrite <- ?app_assoc, ?drop_app_length;
    intros H; no_such_event H.
Qed.

(** After a failed activity insertion the project row of
    [src/pages/NewProject.tsx] stays, without activities. *)
Lemma create_orphan (u : Auth.User) (data : NewProject.ProjectFormData)
    (w : World) (e : Error) (rest : list (option Error)) :
  script w = None :: Some e :: rest ->
  NewProject.activities data <> [] ->
  let w' := run (NewProject.onSubmit (Some u) data) w in
  let row := {| Project.id := ids w (next_id w);
                Project.fields := NewProject.project_fields u data |} in
  projects w' = projects w ++ [row]
  /\ activities w' = activities w
  /\ new_requests w w'
     = [InsertProject (NewProject.project_fields u data);
        InsertActivities
          (map (FormActivity.to_insert false (Project.id row))
             (NewProject.activities data))]
  /\ new_events w w'
     = [SetBusy true;
        Toast destructive "Error creating project"
          (message_or e "An unexpected error occurred.");
        ConsoleError "Error creating project:" [message e];
        SetBusy false].
Proof.
  intros H Hne. destruct w as [ps acts fs bk g n sc se nw rq ui0].
  simpl in H; subst sc.
  unfold new_requests, new_events, run, NewProject.onSubmit.
  destruct (NewProject.activities data) as [|a l]; [congruence|].
  cbn -[drop String.append stored message_or].
  rewrite <- ?app_assoc, ?drop_app_length. repeat split.
Qed.

(** X22: the version of the create page in [unnamed/part_003] compensates
    a refused insert of the activities: it sends the delete of the project
    it has just inserted, whatever becomes of that delete, and then shows
    the error.  When the backend carries the delete out, no row with the id
    of the new project is left; when it refuses, the row stays. *)
Lemma zod_create_compensates (values : NewProjectZod.FormValues) (w : World)
    (u : Auth.User) (e : Error) (r : option Error)
    (rest : list (option Error)) :
  session w = Some u ->
  Js.truthy_str (Some (Auth.id u)) = true ->
  NewProjectZod.activities values <> [] ->
  script w = None :: Some e :: r :: rest ->
  let w' := run (NewProjectZod.onSubmit values) w in
  let pid := ids w (next_id w) in
  let row := {| Project.id := pid;
                Project.fields :=
                  NewProjectZod.project_fields (Auth.id u) values |} in
  new_requests w w'
  = [InsertProject (NewProjectZod.project_fields (Auth.id u) values);
     InsertActivities
       (map (NewProjectZod.to_insert pid) (NewProjectZod.activities values));
     DeleteProject pid]
  /\ new_events w w'
     = [SetBusy true;
        ConsoleError "Error creating project:" [message e];
        Toast destructive "Failed to Create Project"
          (message_or e "An unexpected error occurred.");
        SetBusy false]
  /\ (r = None ->
      projects w' = filter (fun p => Project.id p ≠ pid) (projects w ++ [row])
      /\ project_rows pid w' = [])
  /\ (r <> None -> projects w' = projects w ++ [row]).
Proof.
  intros Hs Hid Hne H. destruct w as [ps acts fs bk g n sc se nw rq ui0].
  simpl in H, Hs; subst sc se.
  unfold new_requests, new_events, project_rows, run, NewProjectZod.onSubmit.
  destruct u as [[|c i] em ap]; [discriminate Hid|].
  destruct (NewProjectZod.activities values) as [|a l]; [congruence|].
  destruct r as [e2|];
    cbn -[drop String.append stored message_or filter List.filter];
    rewrite <- ?app_assoc, ?drop_app_length;
    (split; [reflexivity|]); (split; [reflexivity|]);
    (split; [|congruence]); try discriminate.
  intros _. split; [reflexivity|].
  set (l0 := ps ++ _).
  induction l0 as [|p l0 IH]; [reflexivity|].
  rewrite filter_cons. destruct (decide (Project.id p ≠ g n)) as [Hp|Hp].
  - simpl. destruct (String.eqb_spec (Project.id p) (g n)); [contradiction|].
    exact IH.
  - exact IH.
Qed.

(** C1, on [src/pages/NewProject.tsx]: the backend accepts the project and
    rejects the activities.  The page sends the two inserts and nothing
    else, shows the error, and the project row is still there afterwards,
    with no activity; the delete that C1 describes is never sent. *)
Theorem create_keeps_project_after_failed_activities :
  let w := fresh_backend [None; Some refused] in
  let w' := run (NewProject.onSubmit (Some alice) depot_form) w in
  new_requests w w'
  = [InsertProject (NewProject.project_fields alice depot_form);
     InsertActivities
       (map (FormActivity.to_insert false "id-0") [excavation; paving])]
  /\ project_rows "id-0" w'
     = [ {| Project.id := "id-0";
            Project.fields := NewProject.project_fields alice depot_form |} ]
  /\ activities_of "id-0" w' = []
  /\ new_events w w'
     = [SetBusy true;
        Toast destructive "Error creating project"
          "new row violates row-level security policy";
        ConsoleError "Error creating project:"
          ["new row violates row-level security policy"];
        SetBusy false].
Proof. vm_compute. repeat split. Qed.

Example zod_create_compensates_sample :
  let w := fresh_backend [None; Some refused; None] in
  let w' := run (NewProjectZod.onSubmit depot_values) w in
  projects w' = []
  /\ new_requests w w'
     = [InsertProject (NewProjectZod.project_fields "u-1" depot_values);
        InsertActivities
          (map (NewProjectZod.to_insert "id-0")
             (NewProjectZod.activities depot_values));
        DeleteProject "id-0"].
Proof. vm_compute. split; reflexivity. Qed.

(** ** CSV import *)

(** X23: the CSV import of [src/pages/NewProject.tsx] is all or nothing:
    any reported error leaves the field array as it was and shows one
    message; without errors the array becomes exactly the rows read from
    the file. *)
Lemma csv_import_all_or_nothing (results : Papa.ParseResult)
    (fields : list FormActivity.t) :
  (Papa.errors results <> [] ->
   NewProject.handleCsvUpload (Some (Papa.complete results)) fields
   = (fields,
      [ConsoleError "CSV Parsing Errors:"
         (map Papa.message (Papa.errors results));
       Toast destructive "CSV Parsing Error"
         "Could not parse CSV file. Check console for details."]))
  /\ (Papa.errors results = [] ->
      fst (NewProject.handleCsvUpload (Some (Papa.complete results)) fields)
      = NewProject.newActivities results).
Proof.
  unfold NewProject.handleCsvUpload.
  destruct (Papa.errors results) as [|e es]; split; intros H;
    try congruence; reflexivity.
Qed.

Lemma csv_reader_failure_keeps_fields (e : Error)
    (fields : list FormActivity.t) :
  fst (NewProject.handleCsvUpload (Some (Papa.error e)) fields) = fields
  /\ fst (NewProject.handleCsvUpload None fields) = fields.
Proof. split; reflexivity. Qed.

(** The other version never looks at [results.errors]. *)
Lemma zod_csv_import_replaces (results : Papa.ParseResult)
    (fields : list NewProjectZod.ActivityValues) :
  fst (NewProjectZod.handleCSVUpload (Some (Papa.complete results)) fields)
  = NewProjectZod.parsedActivities results.
Proof. reflexivity. Qed.

(** C5, on the create page of [unnamed/part_003]: the
    reader reports an error for the second line, and the import goes ahead
    all the same.  The row the form held is gone, both rows of the file,
    the short one included, are in its place, and the page announces a
    successful import. *)
Theorem zod_csv_import_ignores_errors :
  Papa.errors short_row_csv <> []
  /\ NewProjectZod.handleCSVUpload (Some (Papa.complete short_row_csv))
       [kept_row]
     = ([ {| NewProjectZod.name := "Trenching";
             NewProjectZod.quantity := Some (Js.Fin 3 0);
             NewProjectZod.unit := Some "m";
             NewProjectZod.rate := Some (Js.Fin 20 0);
             NewProjectZod.start_date := None;
             NewProjectZod.end_date := None |};
          {| NewProjectZod.name := "Backfill";
             NewProjectZod.quantity := Some (Js.Fin 5 0);
             NewProjectZod.unit := Some "";
             NewProjectZod.rate := Some Js.zero;
             NewProjectZod.start_date := None;
             NewProjectZod.end_date := None |} ],
        [Toast default_variant "CSV Imported"
           "2 activities loaded from CSV."]).
Proof. split; [discriminate | vm_compute; reflexivity]. Qed.

Lemma or_else_zero_is_number (x : Js.num) :
  Js.isNaN (Js.or_else x Js.zero) = false.
Proof. destruct x; reflexivity || (unfold Js.or_else; simpl; now destruct (negb _)). Qed.

Lemma or_else_zero_default (x : Js.num) :
  Js.isNaN x = true -> Js.or_else x Js.zero = Js.zero.
Proof. destruct x; simpl; intros H; [reflexivity | discriminate H ..]. Qed.

Lemma truthy_name_nonempty (s : string) :
  Js.truthy_str (Some s) = true <-> s <> "".
Proof.
  destruct s; simpl; split; intros H;
    try reflexivity; try discriminate H; try (intros E; discriminate E).
  now destruct H.
Qed.

(** X24: the rows the CSV import of [src/pages/NewProject.tsx] keeps are
    exactly the converted lines with a non-empty name, and their quantity
    and rate are numbers, 0 standing in for whatever [parseFloat] cannot
    read. *)
Lemma csv_rows_named_and_numeric (results : Papa.ParseResult) :
  (forall a,
      In a (NewProject.newActivities results) <->
      exists row, In row (Papa.data results)
                  /\ a = NewProject.of_csv_row row
                  /\ Js.str_or_empty (row !! "Activity Name") <> "")
  /\ (forall a,
         In a (NewProject.newActivities results) ->
         FormActivity.name a <> ""
         /\ Js.isNaN (FormActivity.quantity a) = false
         /\ Js.isNaN (FormActivity.rate a) = false)
  /\ (forall row,
         (Js.isNaN (Js.parseFloat_cell (row !! "Quantity")) = true ->
          FormActivity.quantity (NewProject.of_csv_row row) = Js.zero)
         /\ (Js.isNaN (Js.parseFloat_cell (row !! "Rate")) = true ->
             FormActivity.rate (NewProject.of_csv_row row) = Js.zero)).
Proof.
  assert (Hin : forall a,
             In a (NewProject.newActivities results) <->
             exists row, In row (Papa.data results)
                         /\ a = NewProject.of_csv_row row
                         /\ Js.str_or_empty (row !! "Activity Name") <> "").
  { intros a. unfold NewProject.newActivities.
    rewrite filter_In, in_map_iff. unfold NewProject.has_name.
    rewrite truthy_name_nonempty. split.
    - intros [(row & <- & Hrow) Hn]. exists row. auto.
    - intros (row & Hrow & -> & Hn). split; [exists row|]; auto. }
  split; [exact Hin|]. split.
  - intros a Ha. apply Hin in Ha as (row & _ & -> & Hn).
    split; [exact Hn|]. split; apply or_else_zero_is_number.
  - intros row. split; apply or_else_zero_default.
Qed.

(** The other version drops the nameless lines just the same. *)
Lemma zod_csv_rows_named (results : Papa.ParseResult)
    (a : NewProjectZod.ActivityValues) :
  In a (NewProjectZod.parsedActivities results) ->
  NewProjectZod.name a <> "".
Proof.
  unfold NewProjectZod.parsedActivities. rewrite filter_In.
  unfold NewProjectZod.has_name. rewrite truthy_name_nonempty. tauto.
Qed.

(** There an empty or missing cell reads as 0, and any other cell as
    whatever [Number] makes of it. *)
Lemma zod_number_or_zero_cases (cell : option string) :
  (Js.truthy_str cell = false -> NewProjectZod.number_or_zero cell = Js.zero)
  /\ (forall s, cell = Some s -> s <> "" ->
                NewProjectZod.number_or_zero cell = Js.Number_of_string s).
Proof.
  unfold NewProjectZod.number_or_zero. split.
  - now intros ->.
  - intros s -> Hs. apply truthy_name_nonempty in Hs. now rewrite Hs.
Qed.

(** C6, on the create page of [unnamed/part_003]: the line
    without a name is dropped, but the quantity ["abc"] and the rate
    ["12,5"] of the line that is kept come out as [NaN], not as 0. *)
Theorem zod_csv_import_keeps_NaN :
  NewProjectZod.parsedActivities odd_numbers_csv
  = [ {| NewProjectZod.name := "Trenching";
         NewProjectZod.quantity := Some Js.NaN;
         NewProjectZod.unit := Some "m";
         NewProjectZod.rate := Some Js.NaN;
         NewProjectZod.start_date := None;
         NewProjectZod.end_date := None |} ].
Proof. vm_compute. reflexivity. Qed.

Example csv_import_defaults_sample :
  NewProject.newActivities odd_numbers_csv
  = [ {| FormActivity.id := None;
         FormActivity.name := "Trenching";
         FormActivity.quantity := Js.zero;
         FormActivity.unit := "m";
         FormActivity.rate := Js.Fin 12 0;
         FormActivity.start_date := None;
         FormActivity.end_date := None;
         FormActivity.project_id := None |} ].
Proof. vm_compute. reflexivity. Qed.

Example csv_import_aborts_sample :
  fst (NewProject.handleCsvUpload (Some (Papa.complete short_row_csv))
         [excavation])
  = [excavation].
Proof. reflexivity. Qed.

(** ** Storage paths *)

Lemma append_assoc (a b c : string) : (a +:+ b) +:+ c = a +:+ (b +:+ c).
Proof.
  induction a as [|x a IH]; [reflexivity|].
  change (String x ((a +:+ b) +:+ c) = String x (a +:+ (b +:+ c))).
  now rewrite IH.
Qed.

Lemma ascii_list_append (a b : string) :
  list_ascii_of_string (a +:+ b)
  = list_ascii_of_string a ++ list_ascii_of_string b.
Proof.
  induction a as [|c a IH]; [reflexivity|].
  change (c :: list_ascii_of_string (a +:+ b)
          = c :: (list_ascii_of_string a ++ list_ascii_of_string b)).
  now rewrite IH.
Qed.

(** Two strings that end in the same name agree on the character just
    before it. *)
Lemma separator_before_suffix (a b n : string) (c d : ascii) :
  a +:+ String c n = b +:+ String d n -> c = d.
Proof.
  intros H. apply (f_equal list_ascii_of_string) in H.
  rewrite !ascii_list_append in H. simpl in H.
  change (?x :: list_ascii_of_string n)
    with ([x] ++ list_ascii_of_string n) in H.
  rewrite !app_assoc in H. apply app_inv_tail in H.
  apply app_inj_tail in H. tauto.
Qed.

(** The path of an upload ends in ["_" ++ name], the path the Delete button
    builds ends in ["/" ++ name]. *)
Lemma paths_differ (projectId projectId' file_name : string) (t : N) :
  Files.filePath projectId t file_name
  <> Files.delete_button_path projectId' file_name.
Proof.
  unfold Files.filePath, Files.delete_button_path. intros H.
  assert (E : "_"%char = "/"%char); [|discriminate E].
  apply (separator_before_suffix (projectId +:+ "/" +:+ Js.toString_N t)
           ("project-files/" +:+ projectId') file_name).
  rewrite !append_assoc. exact H.
Qed.

(** ** Uploading and deleting files *)

Ltac run_files :=
  cbn -[drop String.append message_or Files.filePath
        Files.delete_button_path getPublicUrl lookup insert delete filter];
  rewrite <- ?app_assoc, ?drop_app_length.

(** C7: the blob is stored, the metadata row is refused.  The page then
    asks storage to remove exactly the path it uploaded to, and reports the
    error of the refused insert; no metadata row was added, and once storage
    has carried out the removal the blob is gone.  (The answer to the
    removal is not looked at: if storage refuses it, the blob stays.) *)
Theorem upload_compensates (w : World) (u : Auth.User) (projectId : string)
    (file : Files.SelectedFile) (e : Error) (r : option Error)
    (rest : list (option Error)) :
  Js.truthy_str (Some projectId) = true ->
  script w = None :: Some e :: r :: rest ->
  let w' :=
    run (Files.handleFileUpload (Some u) (Some projectId) (Some file)) w in
  let p := Files.filePath projectId (now w) (Files.name file) in
  new_requests w w'
  = [StorageUpload p (Files.content file);
     InsertFile {| FileRecord.name := Files.name file;
                   FileRecord.url := getPublicUrl p;
                   FileRecord.project_id := projectId;
                   FileRecord.user_id := Auth.id u |};
     StorageRemove [p]]
  /\ new_events w w'
     = [SetBusy true;
        ConsoleError
          "Failed to save file record, attempting to delete storage file:"
          [message e];
        Toast destructive "Error uploading file"
          (message_or e "An unexpected error occurred during upload.");
        ConsoleError "File upload error:" [message e];
        SetBusy false]
  /\ files w' = files w
  /\ (r = None -> bucket w' !! p = None)
  /\ (r <> None -> bucket w' !! p = Some (Files.content file)).
Proof.
  intros Hp H. destruct w as [ps acts fs bk g n sc se nw rq ui0].
  simpl in H; subst sc.
  unfold new_requests, new_events, run, Files.handleFileUpload.
  rewrite Hp.
  destruct r as [e2|]; run_files;
    repeat split; try reflexivity; intros; try congruence.
  - apply lookup_insert_eq.
  - apply lookup_delete_eq.
Qed.

Lemma upload_compensates_witness :
  let w := fresh_backend [None; Some refused; None] in
  let w' :=
    run (Files.handleFileUpload (Some alice) (Some "id-7") (Some plan_pdf)) w in
  let p := Files.filePath "id-7" (now w) "plan.pdf" in
  new_requests w w'
  = [StorageUpload p "%PDF-1.7";
     InsertFile {| FileRecord.name := "plan.pdf";
                   FileRecord.url := getPublicUrl p;
                   FileRecord.project_id := "id-7";
                   FileRecord.user_id := "u-1" |};
     StorageRemove [p]]
  /\ new_events w w'
     = [SetBusy true;
        ConsoleError
          "Failed to save file record, attempting to delete storage file:"
          [message refused];
        Toast destructive "Error uploading file"
          (message_or refused "An unexpected error occurred during upload.");
        ConsoleError "File upload error:" [message refused];
        SetBusy false]
  /\ files w' = files w
  /\ bucket w' !! p = None.
Proof.
  destruct (upload_compensates (fresh_backend [None; Some refused; None])
              alice "id-7" plan_pdf refused None [] eq_refl eq_refl)
    as (H1 & H2 & H3 & H4 & _).
  intros w w' p. split; [exact H1|]. split; [exact H2|].
  split; [exact H3 | exact (H4 eq_refl)].
Defined.

Example upload_path_sample :
  Files.filePath "id-7" 1700000000000 "plan.pdf"
  = "id-7/1700000000000_plan.pdf"
  /\ Files.delete_button_path "id-7" "plan.pdf"
     = "project-files/id-7/plan.pdf".
Proof. split; reflexivity. Qed.

(** C8: deletion sends the delete of the metadata row first and the removal
    of the blob second.  When storage refuses the removal, the metadata row
    stays deleted, the storage error goes to the console only, and the page
    reports success exactly as it does when the removal went through.  Only
    a refused metadata delete is shown as an error, and then storage is not
    asked at all. *)
Theorem delete_tolerates_storage_failure (w : World) (u : Auth.User)
    (projectId fileId path : string) :
  Js.truthy_str (Some projectId) = true ->
  let w' :=
    run (Files.handleDeleteFile (Some u) (Some projectId) true fileId path) w in
  (forall e rest,
      script w = None :: Some e :: rest ->
      new_requests w w' = [DeleteFile fileId; StorageRemove [path]]
      /\ files w' = filter (fun f => FileRecord.id f ≠ fileId) (files w)
      /\ bucket w' = bucket w
      /\ new_events w w'
         = [ConsoleError "Error deleting file from storage:" [message e];
            delete_toast;
            FetchFiles projectId])
  /\ (forall rest,
         script w = None :: None :: rest ->
         new_requests w w' = [DeleteFile fileId; StorageRemove [path]]
         /\ files w' = filter (fun f => FileRecord.id f ≠ fileId) (files w)
         /\ bucket w' = delete path (bucket w)
         /\ new_events w w' = [delete_toast; FetchFiles projectId])
  /\ (forall e rest,
         script w = Some e :: rest ->
         new_requests w w' = [DeleteFile fileId]
         /\ files w' = files w
         /\ bucket w' = bucket w
         /\ new_events w w'
            = [Toast destructive "Error deleting file"
                 (message_or e "An unexpected error occurred during deletion.");
               ConsoleError "File deletion error:" [message e]]).
Proof.
  intros Hp w'. subst w'.
  unfold new_requests, new_events, run, Files.handleDeleteFile, delete_toast.
  rewrite Hp.
  destruct w as [ps acts fs bk g n sc se nw rq ui0].
  split; [intros e rest H | split; [intros rest H | intros e rest H]];
    simpl in H; subst sc; run_files; repeat split.
Qed.

Lemma delete_tolerates_storage_failure_witness :
  let w := fresh_backend [None; Some refused] in
  let w' :=
    run (Files.handleDeleteFile (Some alice) (Some "id-7") true "id-9"
           "project-files/id-7/plan.pdf") w in
  new_requests w w'
  = [DeleteFile "id-9"; StorageRemove ["project-files/id-7/plan.pdf"]]
  /\ files w' = filter (fun f => FileRecord.id f ≠ "id-9") (files w)
  /\ bucket w' = bucket w
  /\ new_events w w'
     = [ConsoleError "Error deleting file from storage:" [message refused];
        delete_toast;
        FetchFiles "id-7"].
Proof.
  exact (proj1 (delete_tolerates_storage_failure
                  (fresh_backend [None; Some refused]) alice "id-7" "id-9"
                  "project-files/id-7/plan.pdf" eq_refl)
           refused [] eq_refl).
Defined.

(** A successful upload stores the blob under [filePath] and records the
    file under its own name. *)
Lemma upload_success (w : World) (u : Auth.User) (projectId : string)
    (file : Files.SelectedFile) (rest : list (option Error)) :
  Js.truthy_str (Some projectId) = true ->
  script w = None :: None :: rest ->
  let w' :=
    run (Files.handleFileUpload (Some u) (Some projectId) (Some file)) w in
  let p := Files.filePath projectId (now w) (Files.name file) in
  files w'
  = files w ++
    [ {| FileRecord.id := ids w (next_id w);
         FileRecord.fields :=
           {| FileRecord.name := Files.name file;
              FileRecord.url := getPublicUrl p;
              FileRecord.project_id := projectId;
              FileRecord.user_id := Auth.id u |} |} ]
  /\ bucket w' = <[p := Files.content file]> (bucket w)
  /\ new_events w w'
     = [SetBusy true; upload_toast; ClearSelectedFile; FetchFiles projectId;
        SetBusy false].
Proof.
  intros Hp H. destruct w as [ps acts fs bk g n sc se nw rq ui0].
  simpl in H; subst sc.
  unfold new_requests, new_events, run, Files.handleFileUpload, upload_toast.
  rewrite Hp. run_files. repeat split.
Qed.

(** Whatever the backend answers, a click on Delete asks storage for
    nothing but the path built from the project id and the file name. *)
Lemma delete_click_requests (w : World) (u : Auth.User) (projectId : string)
    (file : FileRecord.Row) (paths : list string) :
  let w' := run (Files.onDeleteClick (Some u) projectId true file) w in
  In (StorageRemove paths) (new_requests w w') ->
  paths = [Files.delete_button_path projectId
             (FileRecord.name (FileRecord.fields file))].
Proof.
  intros w'. subst w'.
  unfold new_requests, run, Files.onDeleteClick, Files.handleDeleteFile.
  destruct w as [ps acts fs bk g n sc se nw rq ui0].
  destruct (Js.truthy_str (Some projectId));
    [|cbn -[drop]; rewrite drop_all; intros []].
  destruct sc as [|[e|] [|[e2|] rest]]; run_files; simpl; intros H;
    repeat match goal with
      | H : _ \/ _ |- _ => destruct H as [H|H]
      | H : False |- _ => destruct H
      | H : DeleteFile _ = StorageRemove _ |- _ => discriminate H
      | H : StorageRemove _ = StorageRemove _ |- _ =>
          injection H as <-; reflexivity
      end.
Qed.

(** A click on Delete leaves every upload path of the bucket as it was. *)
Lemma delete_click_keeps_blob (w : World) (u : Auth.User)
    (projectId projectId' : string) (file : FileRecord.Row) (t : N) :
  let w' := run (Files.onDeleteClick (Some u) projectId true file) w in
  let p := Files.filePath projectId' t
             (FileRecord.name (FileRecord.fields file)) in
  bucket w' !! p = bucket w !! p.
Proof.
  intros w'. subst w'.
  unfold run, Files.onDeleteClick, Files.handleDeleteFile.
  destruct w as [ps acts fs bk g n sc se nw rq ui0].
  destruct (Js.truthy_str (Some projectId)); [|reflexivity].
  destruct sc as [|[e|] [|[e2|] rest]]; run_files; try reflexivity;
    apply lookup_delete_ne; intros E; symmetry in E;
    exact (paths_differ _ _ _ _ E).
Qed.

(** C9: for a file that was uploaded, the row recorded carries the plain
    file name, and the path a later click on Delete hands to storage is
    built from the project id and that name.  It differs from the path the
    blob was stored under, which has the timestamp in it; so storage is
    never asked to remove that path, and the blob is still there after the
    deletion. *)
Theorem delete_path_never_upload_path (w : World) (u : Auth.User)
    (projectId : string) (file : Files.SelectedFile)
    (rest : list (option Error)) :
  Js.truthy_str (Some projectId) = true ->
  script w = None :: None :: rest ->
  let w1 :=
    run (Files.handleFileUpload (Some u) (Some projectId) (Some file)) w in
  let p := Files.filePath projectId (now w) (Files.name file) in
  exists row,
    files w1 = files w ++ [row]
    /\ bucket w1 !! p = Some (Files.content file)
    /\ Files.delete_button_path projectId
         (FileRecord.name (FileRecord.fields row)) <> p
    /\ forall w2 u2,
         let w3 := run (Files.onDeleteClick (Some u2) projectId true row) w2 in
         (forall paths,
             In (StorageRemove paths) (new_requests w2 w3) ->
             paths = [Files.delete_button_path projectId
                        (FileRecord.name (FileRecord.fields row))]
             /\ ~ In p paths)
         /\ bucket w3 !! p = bucket w2 !! p.
Proof.
  intros Hp H w1 p. subst w1 p.
  destruct (upload_success w u projectId file rest Hp H) as (Hf & Hb & _).
  eexists. split; [exact Hf|]. split.
  { rewrite Hb. apply lookup_insert_eq. }
  split.
  { intros E. symmetry in E. exact (paths_differ _ _ _ _ E). }
  intros w2 u2 w3. split.
  - intros paths Hin. apply delete_click_requests in Hin. simpl in Hin.
    subst paths. split; [reflexivity|].
    intros [E|[]]. exact (paths_differ _ _ _ _ (eq_sym E)).
  - subst w3.
    match goal with
    | |- context [Files.onDeleteClick _ _ _ ?row] =>
        exact (delete_click_keeps_blob w2 u2 projectId projectId row (now w))
    end.
Qed.

Lemma delete_path_never_upload_path_witness :
  let w := fresh_backend [None; None] in
  let w1 :=
    run (Files.handleFileUpload (Some alice) (Some "id-7") (Some plan_pdf)) w in
  let p := Files.filePath "id-7" (now w) "plan.pdf" in
  exists row,
    files w1 = files w ++ [row]
    /\ bucket w1 !! p = Some "%PDF-1.7"
    /\ Files.delete_button_path "id-7"
         (FileRecord.name (FileRecord.fields row)) <> p
    /\ forall w2 u2,
         let w3 := run (Files.onDeleteClick (Some u2) "id-7" true row) w2 in
         (forall paths,
             In (StorageRemove paths) (new_requests w2 w3) ->
             paths = [Files.delete_button_path "id-7"
                        (FileRecord.name (FileRecord.fields row))]
             /\ ~ In p paths)
         /\ bucket w3 !! p = bucket w2 !! p.
Proof.
  exact (delete_path_never_upload_path (fresh_backend [None; None]) alice
           "id-7" plan_pdf [] eq_refl eq_refl).
Defined.

Example upload_then_delete_sample :
  let w1 :=
    run (Files.handleFileUpload (Some alice) (Some "id-7") (Some plan_pdf))
      (fresh_backend []) in
  let w3 :=
    run (Files.onDeleteClick (Some alice) "id-7" true
           {| FileRecord.id := "id-0";
              FileRecord.fields :=
                {| FileRecord.name := "plan.pdf";
                   FileRecord.url :=
                     getPublicUrl "id-7/1700000000000_plan.pdf";
                   FileRecord.project_id := "id-7";
                   FileRecord.user_id := "u-1" |} |}) w1 in
  files w3 = []
  /\ bucket w3 !! "id-7/1700000000000_plan.pdf" = Some "%PDF-1.7"
  /\ new_requests w1 w3
     = [DeleteFile "id-0"; StorageRemove ["project-files/id-7/plan.pdf"]]
  /\ In delete_toast (new_events w1 w3).
Proof. vm_compute. repeat split. auto. Qed.

(** ** Saving an edited project *)

(** Rows selected by a key are all gone once the rows with that key were
    filtered out. *)
Lemma no_rows_with_key {A} (key : A -> string) (k : string) (l : list A) :
  List.filter (fun x => String.eqb (key x) k) (filter (fun x => key x ≠ k) l)
  = [].
Proof.
  induction l as [|x l IH]; [reflexivity|].
  rewrite filter_cons. destruct (decide (key x ≠ k)) as [Hx|Hx]; [|exact IH].
  simpl. destruct (String.eqb_spec (key x) k); [contradiction|exact IH].
Qed.

(** Objects sent without an id are stored under the next ids of the
    backend's generator, one after the other. *)
Lemma stored_generated_ids (g : nat -> string) (n : nat)
    (rows : list Activity.Insert) :
  Forall (fun r => Activity.id r = None) rows ->
  map Activity.row_id (stored g n rows) = map g (seq n (length rows)).
Proof.
  intros H. revert n. induction H as [|r rows Hr _ IH]; intros n;
    [reflexivity|].
  simpl. rewrite Hr. simpl. now rewrite IH.
Qed.

Lemma edit_rows_ask_for_new_ids (id : string)
    (data : EditProject.ProjectFormData) :
  Forall (fun r => Activity.id r = None /\ Activity.project_id r = id)
    (EditProject.activitiesToInsert id data).
Proof.
  unfold EditProject.activitiesToInsert.
  apply List.Forall_forall. intros r Hin.
  apply in_map_iff in Hin as (a & <- & _). split; reflexivity.
Qed.

Ltac run_edit :=
  cbn -[drop String.append message_or stored filter List.filter decide
        EditProject.activitiesToInsert EditProject.patch_of];
  rewrite <- ?app_assoc, ?drop_app_length.

(** C10: saving sends the update of the project with the fields of the
    form, then the delete of all activities of the project, then one insert
    of the rows of the form, one object per row in the order of the form,
    each without an id, so that the backend generates new ones.  When that
    insert is refused after the delete went through, nothing is put back: no
    activity of the project is left, the project row carries the fields of
    the form, and the page shows the error.  When the insert is accepted,
    the rows stored are the rows of the form under newly generated ids. *)
Theorem edit_failed_reinsert_loses_activities (w : World) (u : Auth.User)
    (id : string) (data : EditProject.ProjectFormData) :
  Js.truthy_str (Some id) = true ->
  EditProject.activities data <> [] ->
  let w' := run (EditProject.onSubmit (Some u) (Some id) data) w in
  let rows :=
    map (fun a =>
           {| Activity.id := None;
              Activity.project_id := id;
              Activity.name := FormActivity.name a;
              Activity.quantity :=
                Some (Js.or_else (Js.Number_of_num (FormActivity.quantity a))
                        Js.zero);
              Activity.unit := Some (FormActivity.unit a);
              Activity.rate :=
                Some (Js.or_else (Js.Number_of_num (FormActivity.rate a))
                        Js.zero);
              Activity.start_date := FormActivity.start_date a;
              Activity.end_date := FormActivity.end_date a |})
      (EditProject.activities data) in
  let patch :=
    {| Project.new_name := EditProject.name data;
       Project.new_start_date := EditProject.startDate data;
       Project.new_end_date := EditProject.endDate data;
       Project.new_vendor := EditProject.vendor data;
       Project.new_description := EditProject.description data;
       Project.new_status := EditProject.status data;
       Project.new_completion_percentage :=
         EditProject.completion_percentage data |} in
  let sent :=
    [UpdateProject id patch;
     DeleteActivitiesOfProject id;
     InsertActivities rows] in
  let remaining :=
    filter (fun a => Activity.project_id (Activity.columns a) ≠ id)
      (activities w) in
  let updated :=
    map (fun r =>
           if decide (Project.id r = id)
           then {| Project.id := Project.id r;
                   Project.fields :=
                     {| Project.name := EditProject.name data;
                        Project.start_date :=
                          Some (EditProject.startDate data);
                        Project.end_date := Some (EditProject.endDate data);
                        Project.vendor := Some (EditProject.vendor data);
                        Project.description :=
                          Some (EditProject.description data);
                        Project.user_id := Project.user_id (Project.fields r);
                        Project.created_by :=
                          Project.created_by (Project.fields r);
                        Project.status := Some (EditProject.status data);
                        Project.completion_percentage :=
                          Some (EditProject.completion_percentage data) |} |}
           else r) (projects w) in
  length rows = length (EditProject.activities data)
  /\ Forall (fun r => Activity.id r = None /\ Activity.project_id r = id) rows
  /\ (forall e rest,
         script w = None :: None :: Some e :: rest ->
         new_requests w w' = sent
         /\ projects w' = updated
         /\ activities w' = remaining
         /\ activities_of id w' = []
         /\ new_events w w'
            = [SetBusy true;
               Toast destructive "Error updating project"
                 (message_or e "An unexpected error occurred.");
               ConsoleError "Error updating project:" [message e];
               SetBusy false])
  /\ (forall rest,
         script w = None :: None :: None :: rest ->
         new_requests w w' = sent
         /\ projects w' = updated
         /\ activities w' = remaining ++ stored (ids w) (next_id w) rows
         /\ map Activity.columns (stored (ids w) (next_id w) rows) = rows
         /\ map Activity.row_id (stored (ids w) (next_id w) rows)
            = map (ids w) (seq (next_id w) (length rows))
         /\ new_events w w'
            = [SetBusy true; update_toast;
               NavigateTo ("/projects/" +:+ id); SetBusy false]).
Proof.
  intros Hid Hne w' rows patch sent remaining updated.
  assert (Hrows : rows = EditProject.activitiesToInsert id data)
    by reflexivity.
  assert (Hpatch : patch = EditProject.patch_of data) by reflexivity.
  assert (Hupd : updated
                 = map (fun r => if decide (Project.id r = id)
                                 then Project.apply_patch
                                        (EditProject.patch_of data) r
                                 else r) (projects w)) by reflexivity.
  subst sent. rewrite Hupd, Hpatch, Hrows. clear Hupd Hpatch Hrows.
  subst w' remaining. clear rows patch updated.
  split; [unfold EditProject.activitiesToInsert; apply length_map|].
  split; [apply edit_rows_ask_for_new_ids|].
  unfold new_requests, new_events, activities_of, run, EditProject.onSubmit,
    update_toast.
  rewrite Hid.
  destruct w as [ps acts fs bk g n sc se nw rq ui0].
  destruct (EditProject.activities data) as [|a l] eqn:Ha; [congruence|].
  split; [intros e rest H | intros rest H]; simpl in H; subst sc; run_edit.
  - repeat split. apply (no_rows_with_key
                           (fun a => Activity.project_id (Activity.columns a))).
  - repeat split.
    + apply stored_columns.
    + apply stored_generated_ids.
      eapply Forall_impl; [apply edit_rows_ask_for_new_ids|]. now intros r [].
Qed.

Lemma edit_failed_reinsert_loses_activities_witness :
  let w := depot_backend [None; None; Some refused] in
  let w' :=
    run (EditProject.onSubmit (Some alice) (Some "p-1") depot_edit) w in
  length (activities_of "p-1" w) = 2%nat
  /\ new_requests w w'
     = [UpdateProject "p-1"
          {| Project.new_name := "Depot (phase 2)";
             Project.new_start_date := "2025-01-01";
             Project.new_end_date := "2025-09-30";
             Project.new_vendor := "Acme";
             Project.new_description := "";
             Project.new_status := "delayed";
             Project.new_completion_percentage := Js.Fin 40 0 |};
        DeleteActivitiesOfProject "p-1";
        InsertActivities
          [ {| Activity.id := None;
               Activity.project_id := "p-1";
               Activity.name := "Excavation";
               Activity.quantity := Some (Js.Fin 55 0);
               Activity.unit := Some "m3";
               Activity.rate := Some (Js.Fin 125 (-1));
               Activity.start_date := None;
               Activity.end_date := None |} ]]
  /\ map (fun r => (Project.id r, Project.name (Project.fields r),
                    Project.status (Project.fields r),
                    Project.user_id (Project.fields r))) (projects w')
     = [("p-1", "Depot (phase 2)", Some "delayed", Some "u-1")]
  /\ activities_of "p-1" w' = [].
Proof.
  pose proof (edit_failed_reinsert_loses_activities
                (depot_backend [None; None; Some refused]) alice "p-1"
                depot_edit eq_refl) as T.
  assert (Hne : EditProject.activities depot_edit <> []) by discriminate.
  destruct (T Hne) as (_ & _ & Hfail & _).
  destruct (Hfail refused [] eq_refl) as (Hreq & Hproj & _ & Hnone & _).
  cbv zeta. split; [reflexivity|]. split; [exact Hreq|].
  split; [|exact Hnone].
  rewrite Hproj. reflexivity.
Defined.

Example edit_sample :
  let w' :=
    run (EditProject.onSubmit (Some alice) (Some "p-1") depot_edit)
      (depot_backend [None; None; Some refused]) in
  activities w' = []
  /\ map (fun r => Project.name (Project.fields r)) (projects w')
     = ["Depot (phase 2)"]
  /\ map (fun r => Project.status (Project.fields r)) (projects w')
     = [Some "delayed"].
Proof. vm_compute. repeat split. Qed.

Example edit_accepted_sample :
  let w' :=
    run (EditProject.onSubmit (Some alice) (Some "p-1") depot_edit)
      (depot_backend []) in
  map Activity.row_id (activities w') = ["id-0"]
  /\ map (fun a => Activity.quantity (Activity.columns a)) (activities w')
     = [Some (Js.Fin 55 0)].
Proof. vm_compute. repeat split. Qed.

(** * Further properties of the handlers *)

Ltac run_any :=
  cbn -[drop String.append message_or stored filter List.filter decide
        EditProject.activitiesToInsert EditProject.patch_of
        Files.filePath Files.delete_button_path getPublicUrl
        lookup insert delete];
  rewrite <- ?app_assoc, ?drop_app_length.

Ltac sent_or_not :=
  run_any; rewrite ?drop_all;
  split; [intros H; try (now destruct H); repeat split; eauto
         | intros H; try discriminate;
           repeat match goal with
             | H : _ /\ _ |- _ => destruct H
             | H : exists _, _ |- _ => destruct H
             | H : None = Some _ |- _ => discriminate H
             | H : false = true |- _ => discriminate H
             | H : Some _ = None |- _ => discriminate H
             | H : Some _ = Some _ |- _ => injection H as <-; simpl in *
             | H : ?x <> ?x |- _ => now destruct H
             end].

(** X1: a handler sends a request exactly when its guard lets it through:
    the submit handlers need a signed-in user (and the edit page a project
    id), the upload needs user, project id and a chosen file, the deletion
    needs user, project id and the confirmation.  Otherwise nothing is
    sent, whatever the form holds. *)
Theorem requests_need_guard :
  (forall user data w,
      new_requests w (run (NewProject.onSubmit user data) w) <> []
      <-> user <> None)
  /\ (forall values w,
         new_requests w (run (NewProjectZod.onSubmit values) w) <> []
         <-> exists u, session w = Some u /\ Auth.id u <> "")
  /\ (forall user id data w,
         new_requests w (run (EditProject.onSubmit user id data) w) <> []
         <-> user <> None /\ Js.truthy_str id = true)
  /\ (forall user projectId file w,
         new_requests w
           (run (Files.handleFileUpload user projectId file) w) <> []
         <-> user <> None /\ Js.truthy_str projectId = true /\ file <> None)
  /\ (forall user projectId confirmed fileId path w,
         new_requests w
           (run (Files.handleDeleteFile user projectId confirmed fileId path)
              w) <> []
         <-> user <> None /\ Js.truthy_str projectId = true
             /\ confirmed = true).
Proof.
  split; [|split; [|split; [|split]]].
  - intros user data w. unfold new_requests, run, NewProject.onSubmit.
    destruct w as [ps acts fs bk g n sc se nw rq ui0].
    destruct user as [u|]; [|sent_or_not].
    destruct (NewProject.activities data) as [|a l];
      destruct sc as [|[e|] [|[e2|] rest]]; sent_or_not.
  - intros values w. unfold new_requests, run, NewProjectZod.onSubmit.
    destruct w as [ps acts fs bk g n sc [[[|c i] em ap]|] nw rq ui0].
    + sent_or_not.
    + destruct (NewProjectZod.activities values) as [|a l];
        destruct sc as [|[e|] [|[e2|] [|[e3|] rest]]]; sent_or_not.
    + sent_or_not.
  - intros user id data w. unfold new_requests, run, EditProject.onSubmit.
    destruct w as [ps acts fs bk g n sc se nw rq ui0].
    destruct user as [u|]; [|sent_or_not].
    destruct id as [[|c i]|]; [sent_or_not | | sent_or_not].
    destruct (EditProject.activities data) as [|a l];
      destruct sc as [|[e|] [|[e2|] [|[e3|] rest]]]; sent_or_not.
  - intros user projectId file w.
    unfold new_requests, run, Files.handleFileUpload.
    destruct w as [ps acts fs bk g n sc se nw rq ui0].
    destruct user as [u|]; [|sent_or_not].
    destruct projectId as [[|c i]|]; [sent_or_not | | sent_or_not].
    destruct file as [f|]; [|sent_or_not].
    destruct sc as [|[e|] [|[e2|] [|[e3|] rest]]]; sent_or_not.
  - intros user projectId confirmed fileId path w.
    unfold new_requests, run, Files.handleDeleteFile.
    destruct w as [ps acts fs bk g n sc se nw rq ui0].
    destruct user as [u|]; [|sent_or_not].
    destruct projectId as [[|c i]|]; [sent_or_not | | sent_or_not].
    destruct confirmed; [|sent_or_not].
    destruct sc as [|[e|] [|[e2|] rest]]; sent_or_not.
Qed.

Lemma requests_need_guard_witness :
  new_requests (fresh_backend [])
    (run (NewProject.onSubmit None depot_form) (fresh_backend [])) = []
  /\ new_requests (fresh_backend [])
       (run (Files.handleFileUpload (Some alice) (Some "id-7") (Some plan_pdf))
          (fresh_backend [])) <> [].
Proof.
  split.
  - destruct (proj1 requests_need_guard None depot_form (fresh_backend []))
      as [H _].
    destruct (new_requests _ _) as [|r l]; [reflexivity|].
    exfalso. now apply H.
  - apply (proj1 (proj2 (proj2 (proj2 requests_need_guard)))
             (Some alice) (Some "id-7") (Some plan_pdf) (fresh_backend [])).
    repeat split; discriminate.
Defined.

(** X2: no handler lets an error escape: whatever the backend answers and
    whatever the inputs are, each of the five handlers returns. *)
Theorem handlers_return :
  (forall user data w, returned (NewProject.onSubmit user data) w)
  /\ (forall values w, returned (NewProjectZod.onSubmit values) w)
  /\ (forall user id data w, returned (EditProject.onSubmit user id data) w)
  /\ (forall user projectId file w,
         returned (Files.handleFileUpload user projectId file) w)
  /\ (forall user projectId confirmed fileId path w,
         returned
           (Files.handleDeleteFile user projectId confirmed fileId path) w).
Proof.
  split; [|split; [|split; [|split]]].
  - intros user data w. unfold returned, NewProject.onSubmit.
    destruct w as [ps acts fs bk g n sc se nw rq ui0].
    destruct user as [u|]; [|eexists; reflexivity].
    destruct (NewProject.activities data) as [|a l];
      destruct sc as [|[e|] [|[e2|] rest]]; run_any; eexists; reflexivity.
  - intros values w. unfold returned, NewProjectZod.onSubmit.
    destruct w as [ps acts fs bk g n sc [[[|c i] em ap]|] nw rq ui0];
      try (eexists; reflexivity).
    destruct (NewProjectZod.activities values) as [|a l];
      destruct sc as [|[e|] [|[e2|] [|[e3|] rest]]]; run_any;
      eexists; reflexivity.
  - intros user id data w. unfold returned, EditProject.onSubmit.
    destruct w as [ps acts fs bk g n sc se nw rq ui0].
    destruct user as [u|]; [|eexists; reflexivity].
    destruct id as [[|c i]|]; try (eexists; reflexivity).
    destruct (EditProject.activities data) as [|a l];
      destruct sc as [|[e|] [|[e2|] [|[e3|] rest]]]; run_any;
      eexists; reflexivity.
  - intros user projectId file w. unfold returned, Files.handleFileUpload.
    destruct w as [ps acts fs bk g n sc se nw rq ui0].
    destruct user as [u|]; [|eexists; reflexivity].
    destruct projectId as [[|c i]|]; try (eexists; reflexivity).
    destruct file as [f|]; [|eexists; reflexivity].
    destruct sc as [|[e|] [|[e2|] [|[e3|] rest]]]; run_any;
      eexists; reflexivity.
  - intros user projectId confirmed fileId path w.
    unfold returned, Files.handleDeleteFile.
    destruct w as [ps acts fs bk g n sc se nw rq ui0].
    destruct user as [u|]; [|eexists; reflexivity].
    destruct projectId as [[|c i]|]; try (eexists; reflexivity).
    destruct confirmed; [|eexists; reflexivity].
    destruct sc as [|[e|] [|[e2|] rest]]; run_any; eexists; reflexivity.
Qed.

Ltac not_busy :=
  simpl; intros H;
  repeat (destruct H as [H|H]; [discriminate H|]); destruct H.

Ltac bracketed :=
  run_any; cbn [app]; unfold brackets;
  match goal with
  | |- exists _, [SetBusy true; ?a; SetBusy false] = _ /\ _ =>
      exists [a]
  | |- exists _, [SetBusy true; ?a; ?b; SetBusy false] = _ /\ _ =>
      exists [a; b]
  | |- exists _, [SetBusy true; ?a; ?b; ?c; SetBusy false] = _ /\ _ =>
      exists [a; b; c]
  end; (split; [reflexivity | split; not_busy]).

(** X3: once a submit or an upload has passed its guard, the busy flag is
    switched on first and off last, and nowhere in between, on every path
    through the handler: success, a refusal at any request, or (in the zod
    version, which switches the flag on before it asks for the user) a
    missing session. *)
Theorem busy_flag_is_reset :
  (forall u data w,
      brackets (new_events w (run (NewProject.onSubmit (Some u) data) w)))
  /\ (forall values w,
         brackets (new_events w (run (NewProjectZod.onSubmit values) w)))
  /\ (forall u c i data w,
         brackets
           (new_events w
              (run (EditProject.onSubmit (Some u) (Some (String c i)) data)
                 w)))
  /\ (forall u c i file w,
         brackets
           (new_events w
              (run (Files.handleFileUpload (Some u) (Some (String c i))
                      (Some file)) w))).
Proof.
  split; [|split; [|split]].
  - intros u data w. unfold new_events, run, NewProject.onSubmit.
    destruct w as [ps acts fs bk g n sc se nw rq ui0].
    destruct (NewProject.activities data) as [|a l];
      destruct sc as [|[e|] [|[e2|] rest]]; bracketed.
  - intros values w. unfold new_events, run, NewProjectZod.onSubmit.
    destruct w as [ps acts fs bk g n sc [[[|c i] em ap]|] nw rq ui0];
      [bracketed | | bracketed].
    destruct (NewProjectZod.activities values) as [|a l];
      destruct sc as [|[e|] [|[e2|] [|[e3|] rest]]]; bracketed.
  - intros u c i data w. unfold new_events, run, EditProject.onSubmit.
    destruct w as [ps acts fs bk g n sc se nw rq ui0].
    destruct (EditProject.activities data) as [|a l];
      destruct sc as [|[e|] [|[e2|] [|[e3|] rest]]]; bracketed.
  - intros u c i file w. unfold new_events, run, Files.handleFileUpload.
    destruct w as [ps acts fs bk g n sc se nw rq ui0].
    destruct sc as [|[e|] [|[e2|] [|[e3|] rest]]]; bracketed.
Qed.

(** X4: when the backend refuses the first request of a create, an edit or
    an upload, that request is the only one sent, the tables and the bucket
    are what they were, and the page shows the backend's message. *)
Theorem first_refusal_changes_nothing (w : World) (e : Error)
    (rest : list (option Error)) :
  script w = Some e :: rest ->
  (forall u data,
      let w' := run (NewProject.onSubmit (Some u) data) w in
      same_data w w'
      /\ new_requests w w' = [InsertProject (NewProject.project_fields u data)]
      /\ In (Toast destructive "Error creating project"
               (message_or e "An unexpected error occurred."))
           (new_events w w'))
  /\ (forall values u,
         session w = Some u -> Auth.id u <> "" ->
         let w' := run (NewProjectZod.onSubmit values) w in
         same_data w w'
         /\ new_requests w w'
            = [InsertProject
                 (NewProjectZod.project_fields (Auth.id u) values)]
         /\ In (Toast destructive "Failed to Create Project"
                  (message_or e "An unexpected error occurred."))
              (new_events w w'))
  /\ (forall u id data,
         Js.truthy_str (Some id) = true ->
         let w' := run (EditProject.onSubmit (Some u) (Some id) data) w in
         same_data w w'
         /\ new_requests w w' = [UpdateProject id (EditProject.patch_of data)]
         /\ In (Toast destructive "Error updating project"
                  (message_or e "An unexpected error occurred."))
              (new_events w w'))
  /\ (forall u projectId file,
         Js.truthy_str (Some projectId) = true ->
         let w' :=
           run (Files.handleFileUpload (Some u) (Some projectId) (Some file))
             w in
         same_data w w'
         /\ new_requests w w'
            = [StorageUpload
                 (Files.filePath projectId (now w) (Files.name file))
                 (Files.content file)]
         /\ In (Toast destructive "Error uploading file"
                  (message_or e "An unexpected error occurred during upload."))
              (new_events w w')).
Proof.
  intros H. destruct w as [ps acts fs bk g n sc se nw rq ui0].
  simpl in H; subst sc.
  unfold same_data, new_requests, new_events, run.
  split; [|split; [|split]].
  - intros u data. unfold NewProject.onSubmit. run_any.
    repeat split. simpl. auto.
  - intros values u Hs Hid. simpl in Hs; subst se.
    unfold NewProjectZod.onSubmit.
    destruct u as [[|c i] em ap]; [now destruct Hid|].
    run_any. repeat split. simpl. auto.
  - intros u id data Hid. unfold EditProject.onSubmit. rewrite Hid. run_any.
    repeat split. simpl. auto.
  - intros u projectId file Hid. unfold Files.handleFileUpload. rewrite Hid.
    run_any. repeat split. simpl. auto.
Qed.

Lemma first_refusal_changes_nothing_witness :
  let w := depot_backend [Some refused] in
  let w' :=
    run (EditProject.onSubmit (Some alice) (Some "p-1") depot_edit) w in
  same_data w w'
  /\ new_requests w w' = [UpdateProject "p-1" (EditProject.patch_of depot_edit)]
  /\ In (Toast destructive "Error updating project"
           (message_or refused "An unexpected error occurred."))
       (new_events w w').
Proof.
  exact (proj1 (proj2 (proj2 (first_refusal_changes_nothing
                                (depot_backend [Some refused]) refused []
                                eq_refl)))
           alice "p-1" depot_edit eq_refl).
Defined.



Lemma to_insert_numeric (fresh_id : bool) (pid : string)
    (a : FormActivity.t) :
  let r := FormActivity.to_insert fresh_id pid a in
  Activity.project_id r = pid
  /\ numeric (Activity.quantity r) /\ numeric (Activity.rate r).
Proof.
  simpl. split; [reflexivity|].
  split; eexists; (split; [reflexivity|apply or_else_zero_is_number]).
Qed.

Lemma to_insert_falsy_is_zero (fresh_id : bool) (pid : string)
    (a : FormActivity.t) :
  (Js.truthy (FormActivity.quantity a) = false ->
   Activity.quantity (FormActivity.to_insert fresh_id pid a) = Some Js.zero)
  /\ (Js.truthy (FormActivity.rate a) = false ->
      Activity.rate (FormActivity.to_insert fresh_id pid a) = Some Js.zero).
Proof.
  simpl. unfold Js.or_else, Js.Number_of_num.
  split; intros ->; reflexivity.
Qed.

Ltac which_insert :=
  run_any; simpl; intros H;
  repeat match goal with
    | H : _ \/ _ |- _ => destruct H as [H|H]
    | H : False |- _ => destruct H
    | H : InsertActivities _ = InsertActivities _ |- _ =>
        injection H as <-
    | H : _ = InsertActivities _ |- _ => discriminate H
    end.

(** X6: every activity object the create page [src/pages/NewProject.tsx]
    and the edit page send carries the id of the project being written and
    a quantity and a rate that are numbers other than [NaN]; a quantity or a
    rate that the form holds as [NaN] (an emptied number field) or as 0 is
    sent as 0. *)
Theorem submitted_rows_are_numeric :
  (forall u data w rows,
      In (InsertActivities rows)
        (new_requests w (run (NewProject.onSubmit (Some u) data) w)) ->
      rows = map (FormActivity.to_insert false (ids w (next_id w)))
               (NewProject.activities data)
      /\ Forall (fun r => Activity.project_id r = ids w (next_id w)
                          /\ numeric (Activity.quantity r)
                          /\ numeric (Activity.rate r)) rows)
  /\ (forall u id data w rows,
         In (InsertActivities rows)
           (new_requests w
              (run (EditProject.onSubmit (Some u) (Some id) data) w)) ->
         rows = map (FormActivity.to_insert true id)
                  (EditProject.activities data)
         /\ Forall (fun r => Activity.project_id r = id
                             /\ numeric (Activity.quantity r)
                             /\ numeric (Activity.rate r)) rows)
  /\ (forall fresh_id pid a,
         (Js.truthy (FormActivity.quantity a) = false ->
          Activity.quantity (FormActivity.to_insert fresh_id pid a)
          = Some Js.zero)
         /\ (Js.truthy (FormActivity.rate a) = false ->
             Activity.rate (FormActivity.to_insert fresh_id pid a)
             = Some Js.zero)).
Proof.
  assert (Hall : forall fresh_id pid l,
             Forall (fun r => Activity.project_id r = pid
                              /\ numeric (Activity.quantity r)
                              /\ numeric (Activity.rate r))
               (map (FormActivity.to_insert fresh_id pid) l)).
  { intros fresh_id pid l. apply List.Forall_forall. intros r Hin.
    apply in_map_iff in Hin as (a & <- & _). apply to_insert_numeric. }
  split; [|split].
  - intros u data w rows. unfold new_requests, run, NewProject.onSubmit.
    destruct w as [ps acts fs bk g n sc se nw rq ui0].
    destruct (NewProject.activities data) as [|a l] eqn:Ha;
      destruct sc as [|[e|] [|[e2|] rest]]; which_insert;
      (split; [reflexivity | apply (Hall false (g n) (a :: l))]).
  - intros u id data w rows. unfold new_requests, run, EditProject.onSubmit.
    destruct w as [ps acts fs bk g n sc se nw rq ui0].
    destruct id as [|c i]; [run_any; rewrite drop_all; intros []|].
    unfold EditProject.activitiesToInsert.
    destruct (EditProject.activities data) as [|a l] eqn:Ha;
      destruct sc as [|[e|] [|[e2|] [|[e3|] rest]]]; which_insert;
      (split; [reflexivity | apply (Hall true (String c i) (a :: l))]).
  - apply to_insert_falsy_is_zero.
Qed.

Lemma submitted_rows_are_numeric_witness :
  let w := fresh_backend [] in
  let rows := map (FormActivity.to_insert false "id-0") [excavation; paving] in
  In (InsertActivities rows)
    (new_requests w (run (NewProject.onSubmit (Some alice) depot_form) w))
  /\ Forall (fun r => Activity.project_id r = "id-0"
                      /\ numeric (Activity.quantity r)
                      /\ numeric (Activity.rate r)) rows
  /\ map Activity.quantity rows = [Some (Js.Fin 40 0); Some Js.zero].
Proof.
  intros w rows.
  assert (Hin : In (InsertActivities rows)
                  (new_requests w
                     (run (NewProject.onSubmit (Some alice) depot_form) w))).
  { vm_compute. auto. }
  split; [exact Hin|]. split; [|reflexivity].
  exact (proj2 (proj1 submitted_rows_are_numeric alice depot_form w rows Hin)).
Defined.

(** * Storage paths *)

Section StoragePaths.
Import Decimal.

Lemma digit_char_ok (d : N) : (d < 10)%N ->
  N_of_ascii (Js.digit_char d) = (48 + d)%N.
Proof.
  intros H. unfold Js.digit_char. apply N_ascii_embedding. lia.
Qed.

Lemma render_spec (fuel : nat) : forall (n : N) (acc : string),
  (n < 10 ^ N.of_nat fuel)%N ->
  exists D k,
    Js.render_digits fuel n acc = D +:+ acc
    /\ Forall digit (list_ascii_of_string D)
    /\ forall a, val D a = (a * 10 ^ k + n)%N.
Proof.
  induction fuel as [|f IH]; intros n acc Hn.
  - simpl in Hn. assert (n = 0%N) by lia. subst.
    exists "", 0%N. repeat split; [constructor|]. intros a. simpl. lia.
  - simpl Js.render_digits.
    assert (Hd : (n mod 10 < 10)%N) by (apply N.mod_lt; lia).
    destruct (N.ltb_spec n 10) as [Hlt|Hge].
    + exists (String (Js.digit_char (n mod 10)) ""), 1%N.
      rewrite N.mod_small in * by lia.
      repeat split.
      * constructor; [|constructor]. unfold digit. rewrite digit_char_ok; lia.
      * intros a. simpl. rewrite digit_char_ok by lia. lia.
    + assert (Hq : (n / 10 < 10 ^ N.of_nat f)%N).
      { apply N.Div0.div_lt_upper_bound.
        replace (N.of_nat (S f)) with (N.succ (N.of_nat f)) in Hn by lia.
        rewrite N.pow_succ_r' in Hn. lia. }
      destruct (IH (n / 10)%N (String (Js.digit_char (n mod 10)) acc) Hq)
        as (D & k & HD & Hdig & Hval).
      exists (D +:+ String (Js.digit_char (n mod 10)) ""), (k + 1)%N.
      repeat split.
      * rewrite HD. rewrite append_assoc. reflexivity.
      * rewrite ascii_list_append. apply Forall_app. split; [exact Hdig|].
        constructor; [|constructor]. unfold digit. rewrite digit_char_ok by exact Hd.
        generalize dependent (n mod 10)%N. intros d ? ?. lia.
      * intros a.
        assert (Hv : forall s t b, val (s +:+ t) b = val t (val s b)).
        { induction s as [|c s IHs]; intros t b; [reflexivity|].
          change (val (String c (s +:+ t)) b = val t (val (String c s) b)).
          simpl. apply IHs. }
        rewrite Hv, Hval. simpl. rewrite digit_char_ok by exact Hd.
        rewrite N.pow_add_r. change (10 ^ 1)%N with 10%N.
        pose proof (N.div_mod n 10 ltac:(lia)) as Hdm.
        generalize dependent (10 ^ k)%N. intros p _.
        clear - Hdm. generalize dependent (n mod 10)%N.
        generalize dependent (n / 10)%N. intros q d ->. lia.
Qed.

Lemma toString_spec (n : N) :
  exists k,
    Forall digit (list_ascii_of_string (Js.toString_N n))
    /\ forall a, val (Js.toString_N n) a = (a * 10 ^ k + n)%N.
Proof.
  unfold Js.toString_N.
  destruct (render_spec (S (N.to_nat (N.log2 n))) n "") as (D & k & HD & Hdig & Hval).
  - destruct n as [|p]; [reflexivity|].
    replace (N.of_nat (S (N.to_nat (N.log2 (N.pos p)))))
      with (N.succ (N.log2 (N.pos p))) by lia.
    destruct (N.log2_spec (N.pos p)) as [_ Hlt]; [lia|].
    eapply N.lt_le_trans; [exact Hlt|].
    apply N.pow_le_mono_l. lia.
  - exists k. rewrite HD.
    assert (E : D +:+ "" = D).
    { clear. induction D as [|c D IH]; [reflexivity|].
      change (String c (D +:+ "") = String c D). now rewrite IH. }
    rewrite E. split; assumption.
Qed.

Lemma toString_inj (n m : N) : Js.toString_N n = Js.toString_N m -> n = m.
Proof.
  intros E.
  destruct (toString_spec n) as (k & _ & Hn).
  destruct (toString_spec m) as (k' & _ & Hm).
  specialize (Hn 0%N). specialize (Hm 0%N). rewrite E in Hn.
  rewrite Hn in Hm. simpl in Hm. exact Hm.
Qed.

Lemma digits_then_name (d1 d2 x y : string) :
  Forall digit (list_ascii_of_string d1) ->
  Forall digit (list_ascii_of_string d2) ->
  d1 +:+ String "_" x = d2 +:+ String "_" y ->
  d1 = d2 /\ x = y.
Proof.
  revert d2. induction d1 as [|c d1 IH]; intros [|c2 d2] H1 H2 E.
  - injection E as ->. auto.
  - exfalso. injection E as Ec _. inversion H2 as [|? ? Hc _]; subst.
    unfold digit in Hc. simpl in Hc. lia.
  - exfalso. injection E as Ec _. inversion H1 as [|? ? Hc _]; subst.
    unfold digit in Hc. simpl in Hc. lia.
  - change (String c (d1 +:+ String "_" x) = String c2 (d2 +:+ String "_" y)) in E.
    injection E as -> E. inversion H1; inversion H2; subst.
    destruct (IH d2) as [-> ->]; auto.
Qed.

(** X7: two uploads to a project are stored under the same path only
    when they happen in the same millisecond and the files have the same
    name.  The path is the project id, a slash, [Date.now()] in decimal, an
    underscore and the file name; the decimal numeral determines the time,
    and since it holds no underscore it cannot run into the name. *)
Theorem upload_paths_collide_only_on_same_time_and_name
    (projectId name1 name2 : string) (t1 t2 : N) :
  Files.filePath projectId t1 name1 = Files.filePath projectId t2 name2
  <-> t1 = t2 /\ name1 = name2.
Proof.
  split; [|intros [-> ->]; reflexivity].
  unfold Files.filePath. intros E.
  apply String.app_inj in E.
  change ("/" +:+ ?s) with (String "/" s) in E. injection E as E.
  destruct (toString_spec t1) as (k1 & D1 & _).
  destruct (toString_spec t2) as (k2 & D2 & _).
  destruct (digits_then_name _ _ _ _ D1 D2 E) as [Et ->].
  split; [apply toString_inj, Et | reflexivity].
Qed.

End StoragePaths.

(** * Where the redirects of [App] lead *)

Section Redirects.
Import Auth Router Navigation.







Example segments_samples :
  segments "/login" = ["login"] /\ segments "/" = []
  /\ segments "/projects/42/edit" = ["projects"; "42"; "edit"]
  /\ segments "/projects//42/" = ["projects"; "42"].
Proof. repeat split; reflexivity. Qed.

(** All that [App] ever renders. *)
Lemma app_elements (auth : AuthContextType) (location : Pathname) :
  App auth location = Nothing
  \/ App auth location = LoadingDiv
  \/ App auth location
     = Navigate "/login" (Some (pathname_string location)) false
  \/ App auth location = Navigate "/dashboard" None true
  \/ App auth location = PageElement Login
  \/ App auth location = PageElement Signup.
Proof.
  unfold App. destruct (matchRoutes location) as [b|] eqn:Hm; [|auto].
  apply best_match_In in Hm. unfold routes in Hm. simpl in Hm.
  repeat (destruct Hm as [<- | Hm]; [simpl; auto 10|]); try destruct Hm.
  all: unfold ProtectedRoute, AuthenticatedLayout;
    destruct (loading auth); auto; destruct (user auth); auto 10.
Qed.

Lemma settle_step (h : nat) (auth : AuthContextType) (location : Pathname) :
  settle (S h) auth location
  = match App auth location with
    | Navigate to _ _ => settle h auth (segments to)
    | el => el
    end.
Proof. reflexivity. Qed.

Lemma login_settles (h : nat) (auth : AuthContextType) :
  settle h auth ["login"] = PageElement Login.
Proof. destruct h; reflexivity. Qed.

Lemma dashboard_settles (h : nat) (auth : AuthContextType) :
  settle (S h) auth ["dashboard"]
  = if loading auth then LoadingDiv
    else match user auth with
         | None => PageElement Login
         | Some _ => Nothing
         end.
Proof.
  rewrite settle_step.
  change (App auth ["dashboard"])
    with (AuthenticatedLayout auth ["dashboard"] Nothing).
  unfold AuthenticatedLayout.
  destruct (loading auth); [reflexivity|].
  destruct (user auth); [reflexivity|].
  change (segments "/login") with ["login"]. apply login_settles.
Qed.

Lemma settle_cases (h : nat) (auth : AuthContextType) (location : Pathname) :
  settle (S (S h)) auth location
  = match App auth location with
    | Navigate to _ _ =>
        if String.eqb to "/login" then PageElement Login
        else if loading auth then LoadingDiv
             else match user auth with
                  | None => PageElement Login
                  | Some _ => Nothing
                  end
    | el => el
    end.
Proof.
  rewrite settle_step.
  destruct (app_elements auth location) as [E|[E|[E|[E|[E|E]]]]];
    rewrite E; try reflexivity.
  change (segments "/dashboard") with ["dashboard"].
  apply dashboard_settles.
Qed.

(** X8: following the redirects of [App] never goes round in circles.
    From every request and in every state of the auth context, two
    navigations at most lead to an element that asks for no further one,
    and more hops change nothing.  A visitor who is not signed in ends on
    the login page from every route except [/signup]; the root path ends,
    through [/dashboard], on whatever the guard gives a signed-in user. *)
Theorem redirects_settle (auth : AuthContextType) (location : Pathname)
    (h : nat) :
  at_rest (settle (2 + h) auth location)
  /\ settle (2 + h) auth location = settle 2 auth location
  /\ (forall b,
         state_of auth = unauthenticated ->
         matchRoutes location = Some b ->
         requested_page b <> Some Signup ->
         settle 2 auth location = PageElement Login)
  /\ (state_of auth = authenticated -> settle 2 auth [] = Nothing).
Proof.
  change (2 + h)%nat with (S (S h)).
  split; [|split; [|split]].
  - rewrite settle_cases.
    destruct (app_elements auth location) as [E|[E|[E|[E|[E|E]]]]];
      rewrite E; simpl; auto.
    destruct (loading auth); simpl; auto. destruct (user auth); simpl; auto.
  - now rewrite !settle_cases.
  - intros b Hs Hm Hr. rewrite settle_cases.
    apply unauthenticated_inv in Hs as [Hl Hu].
    unfold App. rewrite Hm. apply best_match_In in Hm.
    unfold routes in Hm. simpl in Hm.
    repeat (destruct Hm as [<- | Hm];
            [cbn [render]; unfold ProtectedRoute, AuthenticatedLayout;
             rewrite ?Hl, ?Hu; try reflexivity|]);
      try destruct Hm.
    now destruct Hr.
  - intros Hs. apply authenticated_inv in Hs as [Hl [u Hu]].
    rewrite settle_cases.
    change (App auth []) with (Navigate "/dashboard" None true).
    simpl. now rewrite Hl, Hu.
Qed.

Lemma redirects_settle_witness :
  settle 2 signed_out [] = PageElement Login
  /\ settle 1 signed_out [] <> PageElement Login.
Proof.
  split; [|discriminate].
  destruct (redirects_settle signed_out [] 0) as (_ & _ & H & _).
  apply (H (Top [] (Navigate "/dashboard" None true))); [reflexivity ..|].
  discriminate.
Defined.

(** X9: of the thirteen pages [App] names, only the login and the sign-up
    page are ever rendered.  The eleven others are children of the layout
    route whose element is [<ProtectedRoute />], used without children and
    without an outlet: for a signed-in user the guard returns its (missing)
    children, so a request for any of these pages renders nothing, directly
    or after following redirects. *)
Theorem protected_pages_are_never_rendered (auth : AuthContextType)
    (location : Pathname) (p : Page) (h : nat) :
  App auth location = PageElement p \/ settle h auth location = PageElement p ->
  p = Login \/ p = Signup.
Proof.
  assert (HA : forall loc, App auth loc = PageElement p ->
                           p = Login \/ p = Signup).
  { intros loc H.
    destruct (app_elements auth loc) as [E|[E|[E|[E|[E|E]]]]];
      rewrite E in H; try discriminate H; injection H as <-; auto. }
  intros [H|H]; [exact (HA _ H)|].
  revert location H. induction h as [|h IH]; intros location H.
  - simpl in H. destruct (App auth location) eqn:E; try discriminate H.
    apply (HA location). now rewrite E.
  - rewrite settle_step in H.
    destruct (App auth location) eqn:E; try discriminate H.
    + exact (IH _ H).
    + apply (HA location). now rewrite E.
Qed.

Lemma protected_pages_are_never_rendered_witness :
  App (signed_in alice) ["dashboard"] = Nothing
  /\ (Login = Login \/ Login = Signup).
Proof.
  split; [reflexivity|].
  apply (protected_pages_are_never_rendered (signed_in alice) ["login"] Login 0).
  left. reflexivity.
Defined.






End Redirects.

(** * What a save leaves alone *)

Lemma filter_others {A} (key : A -> string) (k k' : string) (l : list A) :
  k' <> k ->
  List.filter (fun x => String.eqb (key x) k') (filter (fun x => key x ≠ k) l)
  = List.filter (fun x => String.eqb (key x) k') l.
Proof.
  intros Hk. induction l as [|x l IH]; [reflexivity|].
  rewrite filter_cons. destruct (decide (key x ≠ k)) as [Hx|Hx].
  - simpl. now rewrite IH.
  - simpl. destruct (String.eqb_spec (key x) k') as [E|_]; [|exact IH].
    exfalso. apply Hx. congruence.
Qed.

Lemma patched_others (p : Project.Patch) (k k' : string)
    (l : list Project.Row) :
  k' <> k ->
  List.filter (fun r => String.eqb (Project.id r) k')
    (map (fun r => if decide (Project.id r = k)
                   then Project.apply_patch p r else r) l)
  = List.filter (fun r => String.eqb (Project.id r) k') l.
Proof.
  intros Hk. induction l as [|x l IH]; [reflexivity|].
  simpl. destruct (decide (Project.id x = k)) as [E|E].
  - destruct x as [i f]. simpl in *. subst i.
    destruct (String.eqb_spec k k'); [congruence|]. exact IH.
  - destruct (String.eqb (Project.id x) k'); [now rewrite IH|exact IH].
Qed.

Lemma stored_project (g : nat -> string) (n : nat) (k k' : string)
    (rows : list Activity.Insert) :
  k' <> k ->
  Forall (fun r => Activity.project_id r = k) rows ->
  List.filter
    (fun a => String.eqb (Activity.project_id (Activity.columns a)) k')
    (stored g n rows) = [].
Proof.
  intros Hk H. revert n. induction H as [|r rows Hr _ IH]; intros n;
    [reflexivity|].
  simpl. destruct (Activity.id r); simpl; rewrite Hr;
    destruct (String.eqb_spec k k'); try congruence; apply IH.
Qed.

(** X11: saving an edited project touches no other project.  Whatever
    the form holds and whatever the backend answers to each request, the
    row and the activities of every other project are afterwards what they
    were, and so are the file records and the bucket. *)
Theorem edit_leaves_other_projects (w : World) (user : option Auth.User)
    (id : option string) (data : EditProject.ProjectFormData)
    (other : string) :
  id <> Some other ->
  let w' := run (EditProject.onSubmit user id data) w in
  project_rows other w' = project_rows other w
  /\ activities_of other w' = activities_of other w
  /\ files w' = files w
  /\ bucket w' = bucket w.
Proof.
  intros Hid w'. subst w'.
  unfold project_rows, activities_of, run, EditProject.onSubmit.
  destruct w as [ps acts fs bk g n sc se nw rq ui0].
  destruct user as [u|]; [|repeat split].
  destruct id as [[|c i]|]; [repeat split| |repeat split].
  assert (Hne : other <> String c i) by congruence.
  assert (Hrows := edit_rows_ask_for_new_ids (String c i) data).
  unfold EditProject.activitiesToInsert in *.
  destruct (EditProject.activities data) as [|a l] eqn:Ha;
    destruct sc as [|[e|] [|[e2|] [|[e3|] rest]]]; run_edit;
    repeat split;
    rewrite ?List.filter_app, 
      ?(filter_others (fun a => Activity.project_id (Activity.columns a))),
      ?patched_others by exact Hne;
    try reflexivity.
  all: rewrite (stored_project g n (String c i) other) ; [apply app_nil_r|exact Hne|].
  all: eapply Forall_impl; [exact Hrows|]; now intros r [].
Qed.

Lemma edit_leaves_other_projects_witness :
  let w := depot_backend [None; None; Some refused] in
  let w' := run (EditProject.onSubmit (Some alice) (Some "p-2") depot_edit) w in
  length (activities_of "p-1" w') = 2%nat
  /\ project_rows "p-1" w' = project_rows "p-1" w.
Proof.
  intros w w'.
  assert (Hne : Some "p-2" <> Some "p-1") by discriminate.
  destruct (edit_leaves_other_projects w (Some alice) (Some "p-2") depot_edit
              "p-1" Hne) as (Hp & Ha & _).
  split; [|exact Hp].
  unfold w'. now rewrite Ha.
Defined.

(** * Upload and deletion of a file *)

Lemma filter_fresh {A} (key : A -> string) (k : string) (l : list A) :
  Forall (fun x => key x <> k) l ->
  filter (fun x => key x ≠ k) l = l.
Proof.
  induction 1 as [|x l Hx _ IH]; [reflexivity|].
  rewrite filter_cons. destruct (decide (key x ≠ k)); [|contradiction].
  now rewrite IH.
Qed.

Lemma drop_past {A} (x l l' : list A) :
  drop (length (x ++ l)) (x ++ l') = drop (length l) l'.
Proof. rewrite length_app. apply drop_app_add. Qed.

(** X12: [handleDeleteFile] undoes [handleFileUpload] when it is given
    the id of the recorded file and the path the blob was stored under.
    With all four requests accepted, an id the table did not hold and a path
    the bucket did not hold, tables and bucket are afterwards exactly what
    they were before the upload; the deletion sends the delete of the row
    and the removal of that one path and reports success. *)
Theorem delete_undoes_upload (w : World) (u : Auth.User) (projectId : string)
    (file : Files.SelectedFile) (rest : list (option Error)) :
  let p := Files.filePath projectId (now w) (Files.name file) in
  let fileId := ids w (next_id w) in
  Js.truthy_str (Some projectId) = true ->
  script w = None :: None :: None :: None :: rest ->
  Forall (fun f => FileRecord.id f <> fileId) (files w) ->
  bucket w !! p = None ->
  let w1 :=
    run (Files.handleFileUpload (Some u) (Some projectId) (Some file)) w in
  let w2 :=
    run (Files.handleDeleteFile (Some u) (Some projectId) true fileId p) w1 in
  bucket w1 !! p = Some (Files.content file)
  /\ same_data w w2
  /\ new_requests w1 w2 = [DeleteFile fileId; StorageRemove [p]]
  /\ new_events w1 w2 = [delete_toast; FetchFiles projectId].
Proof.
  intros p fileId Hp H Hfresh Hfree w1 w2. subst p fileId w1 w2.
  unfold same_data, new_requests, new_events, run, Files.handleFileUpload,
    Files.handleDeleteFile, delete_toast.
  rewrite Hp. destruct w as [ps acts fs bk g n sc se nw rq ui0].
  simpl in H, Hfresh, Hfree; subst sc. run_files.
  rewrite !drop_past. cbn [drop length app].
  split; [apply lookup_insert_eq|].
  split; [|split; reflexivity].
  repeat split.
  - rewrite filter_app, (filter_fresh FileRecord.id) by exact Hfresh.
    rewrite filter_cons, filter_nil. simpl.
    destruct (decide (g n ≠ g n)); [contradiction|]. apply app_nil_r.
  - rewrite delete_insert_eq. now apply delete_id.
Qed.

Lemma delete_undoes_upload_witness :
  let w := fresh_backend [None; None; None; None] in
  let w1 :=
    run (Files.handleFileUpload (Some alice) (Some "id-7") (Some plan_pdf)) w in
  let w2 :=
    run (Files.handleDeleteFile (Some alice) (Some "id-7") true "id-0"
           "id-7/1700000000000_plan.pdf") w1 in
  bucket w1 !! "id-7/1700000000000_plan.pdf" = Some "%PDF-1.7"
  /\ same_data w w2.
Proof.
  intros w w1 w2.
  assert (Hfresh : Forall (fun f => FileRecord.id f <> ids w (next_id w))
                     (files w)) by constructor.
  assert (Hfree : bucket w !! Files.filePath "id-7" (now w) "plan.pdf" = None)
    by apply lookup_empty.
  destruct (delete_undoes_upload w alice "id-7" plan_pdf [] eq_refl eq_refl
              Hfresh Hfree) as (H1 & H2 & _).
  split; [exact H1 | exact H2].
Defined.

(** * The auth context and the pages that drive it *)

Section AuthFlow.
Import Auth Router Navigation AuthProvider.

Lemma protected_render (auth : AuthContextType) (location : Pathname)
    (b : Branch) :
  matchRoutes location = Some b -> is_protected b = true ->
  App auth location = AuthenticatedLayout auth location Nothing.
Proof.
  intros Hm Hp. unfold App. rewrite Hm.
  destruct b; [discriminate Hp|reflexivity].
Qed.

(** X13: the gate follows the session the provider was last told of.
    Before any word from the backend every protected request shows the
    loading placeholder; once the listener (or the initial [getSession])
    has delivered a session, the provider's user is the user of that
    session, and a protected request passes the guard when there is a
    session and is redirected to [/login], with the requested path as
    [from], when there is none. *)
Theorem gate_follows_session (location : Pathname) (b : Branch) :
  matchRoutes location = Some b -> is_protected b = true ->
  App (value initial) location = LoadingDiv
  /\ (forall s st,
         getSession_then s st = onAuthStateChange s st
         /\ user (onAuthStateChange s st)
            = option_map session_user (session (onAuthStateChange s st)))
  /\ (forall s st,
         App (value (onAuthStateChange (Some s) st)) location = Nothing)
  /\ (forall st,
         App (value (onAuthStateChange None st)) location
         = Navigate "/login" (Some (pathname_string location)) false).
Proof.
  intros Hm Hp. repeat split; intros;
    rewrite ?(protected_render _ _ _ Hm Hp); reflexivity.
Qed.

Lemma gate_follows_session_witness :
  App (value initial) ["projects"; "7"; "files"] = LoadingDiv
  /\ App (value (onAuthStateChange None initial)) ["projects"; "7"; "files"]
     = Navigate "/login" (Some "/projects/7/files") false.
Proof.
  destruct (gate_follows_session ["projects"; "7"; "files"]
              (UnderProtected
                 [Static "projects"; Param "id"; Static "files"] Files)
              eq_refl eq_refl) as (H1 & _ & _ & H2).
  split; [exact H1 | exact (H2 initial)].
Defined.

(** X14: signing out.  When the backend accepts, user and session are
    cleared and from then on every protected request is redirected to
    [/login]; when it refuses, user and session stay as they were, so the
    guard decides as before, and the error is thrown: [handleSignOut] of
    the profile page awaits [signOut] with nothing around it, so the error
    leaves the handler.  Either way the provider is no longer loading. *)
Theorem sign_out_closes_gate (api : AuthApi) (st : State)
    (location : Pathname) (b : Branch) :
  matchRoutes location = Some b -> is_protected b = true ->
  let st' := snd (Profile.handleSignOut api st) in
  loading st' = false
  /\ (auth_signOut api = None ->
      fst (Profile.handleSignOut api st) = Returned tt
      /\ user st' = None /\ session st' = None
      /\ App (value st') location
         = Navigate "/login" (Some (pathname_string location)) false)
  /\ (forall e, auth_signOut api = Some e ->
        fst (Profile.handleSignOut api st) = Thrown e
        /\ user st' = user st /\ session st' = session st
        /\ App (value st') location
           = App (value (setLoading false st)) location).
Proof.
  intros Hm Hp st'. subst st'. unfold Profile.handleSignOut, signOut.
  destruct (auth_signOut api) as [e|]; simpl.
  - split; [reflexivity|]. split; [discriminate|].
    intros e' [= <-]. repeat split.
  - split; [reflexivity|]. split; [|discriminate].
    intros _. rewrite (protected_render _ _ _ Hm Hp). repeat split.
Qed.
Lemma sign_out_closes_gate_witness :
  let st := onAuthStateChange (Some alice_session) initial in
  let st' := snd (Profile.handleSignOut accepting_auth st) in
  App (value st) ["dashboard"] = Nothing
  /\ App (value st') ["dashboard"]
     = Navigate "/login" (Some "/dashboard") false.
Proof.
  intros st st'. split; [reflexivity|].
  destruct (sign_out_closes_gate accepting_auth st ["dashboard"]
              (UnderProtected [Static "dashboard"] Dashboard)
              eq_refl eq_refl) as (_ & H & _).
  exact (proj2 (proj2 (proj2 (H eq_refl)))).
Defined.

(** X15: the login page navigates to [/dashboard] exactly when the
    backend answered the sign-in without an error and with a user; the
    provider then holds that user, so the request for [/dashboard] that
    follows passes the guard.  After an answer with an error the provider's
    user and session are what they were and the page shows the backend's
    message; after an answer without error the provider holds whatever the
    answer carried, a missing user included.  In every case the provider is
    no longer loading. *)
Theorem login_navigates_only_when_signed_in (api : AuthApi)
    (email password : string) (st : State) :
  let response := signInWithPassword api email password in
  let evs := fst (Login.handleLogin api email password st) in
  let st' := snd (Login.handleLogin api email password st) in
  (In (NavigateTo "/dashboard") evs
   <-> error response = None /\ data_user (data response) <> None)
  /\ (In (NavigateTo "/dashboard") evs ->
      state_of (value st') = authenticated
      /\ settle 1 (value st') (segments "/dashboard") = Nothing)
  /\ (forall e, error response = Some e ->
        user st' = user st /\ session st' = session st
        /\ evs = [Toast destructive "Login failed"
                    (message_or e "An unexpected error occurred.");
                  ConsoleError "Login error:" [message e]])
  /\ (error response = None ->
      user st' = data_user (data response)
      /\ session st' = data_session (data response))
  /\ loading st' = false.
Proof.
  intros response evs st'. subst response evs st'.
  unfold Login.handleLogin, signIn.
  destruct (signInWithPassword api email password) as [[u s] [e|]]; simpl.
  - split.
    { split; [intros [H|[H|[]]]; discriminate H | intros [H _]; discriminate H]. }
    split; [intros [H|[H|[]]]; discriminate H|].
    split; [intros e' [= <-]; repeat split|].
    split; [discriminate|reflexivity].
  - destruct u as [u|]; simpl.
    + split; [split; [intros _; split; [reflexivity|discriminate]|auto]|].
      split; [intros _; split; reflexivity|].
      split; [discriminate|]. repeat split.
    + split.
      { split; [intros [H|[]]; discriminate H | intros [_ H]; now destruct H]. }
      split; [intros [H|[]]; discriminate H|].
      split; [discriminate|]. repeat split.
Qed.

Lemma login_navigates_only_when_signed_in_witness :
  let st' :=
    snd (Login.handleLogin accepting_auth "alice@example.com" "secret"
           initial) in
  state_of (value st') = authenticated
  /\ settle 1 (value st') (segments "/dashboard") = Nothing.
Proof.
  intros st'.
  apply (login_navigates_only_when_signed_in accepting_auth
           "alice@example.com" "secret" initial).
  simpl. auto.
Defined.

(** X16: the sign-up page never gets past the answer of [signUp].  The
    provider's [signUp] returns [{ user, session }]; the page takes [data]
    and [error] out of that object, which are both missing, and then reads
    [authData.user].  So whatever the backend answers, no row is sent to
    [users], the page never shows the success message and never navigates
    to [/login]: it shows "Registration failed" between switching the busy
    flag on and off.  When the backend did accept the sign-up, the provider
    nevertheless holds the user and session of the answer. *)
Theorem signup_never_succeeds (api : AuthApi) (raised : Error)
    (dbAnswer : option Error) (name email password role : string)
    (st : State) :
  let response :=
    auth_signUp api email password [("name", name); ("role", role)] in
  let r := Signup.handleSignup api raised dbAnswer name email password role
             st in
  Signup.requests r = []
  /\ (exists e,
         Signup.events r
         = [SetBusy true;
            Toast destructive "Registration failed"
              (message_or e "An unexpected error occurred.");
            ConsoleError "Signup error:" [message e];
            SetBusy false]
         /\ e = match error response with Some e' => e' | None => raised end)
  /\ ~ In (NavigateTo "/login") (Signup.events r)
  /\ (error response = None ->
      user (Signup.state r) = data_user (data response)
      /\ session (Signup.state r) = data_session (data response))
  /\ (error response <> None ->
      user (Signup.state r) = user st
      /\ session (Signup.state r) = session st).
Proof.
  intros response r. subst response r.
  unfold Signup.handleSignup, signUp.
  destruct (auth_signUp api email password _) as [[u s] [e|]]; simpl.
  - split; [reflexivity|]. split; [exists e; split; reflexivity|].
    split; [intros H; no_such_event H|].
    split; [discriminate|]. repeat split.
  - split; [reflexivity|]. split; [exists raised; split; reflexivity|].
    split; [intros H; no_such_event H|].
    split; [repeat split|]. intros H. now destruct H.
Qed.
End AuthFlow.

(** * Pages that mirror a table: notifications and users *)

Lemma filter_map_commute {A} (p : A -> bool) (f : A -> A) (l : list A) :
  (forall x, p (f x) = p x) ->
  List.filter p (map f l) = map f (List.filter p l).
Proof.
  intros H. induction l as [|x l IH]; [reflexivity|].
  simpl. rewrite H. destruct (p x); simpl; now rewrite IH.
Qed.

Lemma map_agree {A B} (f g : A -> B) (l : list A) :
  Forall (fun x => f x = g x) l -> map f l = map g l.
Proof. induction 1 as [|x l Hx _ IH]; simpl; congruence. Qed.

Section NotificationsPage.
Import Notifications.

Lemma mark_read (n : Notification) : read n = true -> mark n = n.
Proof. destruct n as [i u m r c l]. simpl. now intros ->. Qed.

Lemma mark_twice (n : Notification) : mark (mark n) = mark n.
Proof. reflexivity. Qed.

Lemma unread_marked (l : list Notification) : unread (map mark l) = [].
Proof. induction l as [|n l IH]; [reflexivity|exact IH]. Qed.

(** X17: marking notifications as read keeps the page in step with the
    table.  If the list of the page holds the user's rows of the table,
    then after an accepted [markAsRead] or [markAllAsRead] it still does;
    after [markAllAsRead] no row of the user is unread, on the page or in
    the table, and rows of other users are as they were.  A refused request
    changes neither side and shows the backend's message.  Marking the same
    notification a second time changes nothing more. *)
Theorem marking_keeps_page_in_step (u : Auth.User) (st : State) :
  in_step (Auth.id u) st ->
  (forall i,
      let st' := state (markAsRead None i st) in
      in_step (Auth.id u) st'
      /\ state (markAsRead None i st') = st'
      /\ events (markAsRead None i st) = [])
  /\ (let st' := state (markAllAsRead (Some u) None st) in
      in_step (Auth.id u) st'
      /\ unread (notifications st') = []
      /\ unread (of_user (Auth.id u) (table st')) = []
      /\ forall other, other <> Auth.id u ->
           of_user other (table st') = of_user other (table st))
  /\ (forall e i,
         state (markAsRead (Some e) i st) = st
         /\ state (markAllAsRead (Some u) (Some e) st) = st
         /\ In (Toast destructive "Error"
                  (message_or e "Failed to mark notification as read."))
              (events (markAsRead (Some e) i st))).
Proof.
  intros Hstep. unfold in_step in *. destruct st as [tb ns]. simpl in *.
  split; [|split].
  - intros i. simpl. split; [|split; [|reflexivity]].
    + unfold of_user, update_by_id. rewrite filter_map_commute.
      * now apply Permutation_map.
      * intros n. destruct (String.eqb (id n) i); reflexivity.
    + unfold update_by_id. rewrite !map_map. f_equal; apply map_ext;
        intros n; destruct (String.eqb (id n) i) eqn:E; simpl;
        rewrite E; reflexivity.
  - simpl. split; [|split; [|split]].
    + unfold of_user, update_unread_of. rewrite filter_map_commute.
      * match goal with
        | |- Permutation _ (map ?g ?l) => rewrite (map_agree g mark l)
        end; [now apply Permutation_map|].
        apply List.Forall_forall. intros n Hn.
        apply filter_In in Hn as [_ Hn]. rewrite Hn. simpl.
        destruct (read n) eqn:Hr; [|reflexivity].
        simpl. symmetry. now apply mark_read.
      * intros n. destruct (_ && _); reflexivity.
    + apply unread_marked.
    + clear Hstep. unfold unread, of_user, update_unread_of.
      induction tb as [|n tb IH]; [reflexivity|].
      simpl. destruct (String.eqb (user_id n) (Auth.id u)) eqn:E; simpl.
      * destruct (read n) eqn:Hr; simpl; rewrite E; simpl; rewrite ?Hr;
          simpl; exact IH.
      * rewrite E. exact IH.
    + intros other Hne. clear Hstep. unfold of_user, update_unread_of.
      induction tb as [|n tb IH]; [reflexivity|].
      simpl. destruct (String.eqb_spec (user_id n) (Auth.id u)) as [E|E];
        simpl.
      * destruct (read n); simpl;
          (destruct (String.eqb_spec (user_id n) other) as [E'|_];
           [congruence|exact IH]).
      * now rewrite IH.
  - intros e i. repeat split. simpl. auto.
Qed.

Lemma marking_keeps_page_in_step_witness :
  let n1 := {| id := "n-1"; user_id := "u-1"; message := "Plan uploaded";
               read := false; created_at := "2024-05-01";
               link := Some "/projects/p-1" |} in
  let n2 := {| id := "n-2"; user_id := "u-2"; message := "Welcome";
               read := false; created_at := "2024-05-02"; link := None |} in
  let st := {| table := [n1; n2]; notifications := [n1] |} in
  let st' := state (markAllAsRead (Some alice) None st) in
  in_step "u-1" st
  /\ in_step "u-1" st'
  /\ table st' = [mark n1; n2].
Proof.
  intros n1 n2 st st'.
  assert (H : in_step (Auth.id alice) st) by (apply Permutation_refl).
  split; [exact H|].
  split; [|reflexivity].
  exact (proj1 (proj1 (proj2 (marking_keeps_page_in_step alice st H)))).
Defined.
End NotificationsPage.
Section UsersPage.
Import UserManagement.

(** X18: approval and role are changed independently of each other, and
    the page stays in step with the table.  An accepted approval or denial
    leaves every role as it was, an accepted role change leaves every
    approval as it was (so giving a pending user a role does not approve
    them), the two changes can be made in either order, and a refused
    request changes neither the table nor the page. *)
Theorem approval_and_role_are_independent (st : State) (userId : string)
    (b : bool) (r : Role) :
  in_step st ->
  let approved_st := state (handleApproveDeny None userId b st) in
  let role_st := state (handleRoleChange None userId r st) in
  in_step approved_st /\ in_step role_st
  /\ map role (table approved_st) = map role (table st)
  /\ map role (users approved_st) = map role (users st)
  /\ map approved (table role_st) = map approved (table st)
  /\ map approved (users role_st) = map approved (users st)
  /\ state (handleRoleChange None userId r approved_st)
     = state (handleApproveDeny None userId b role_st)
  /\ (forall e,
         state (handleApproveDeny (Some e) userId b st) = st
         /\ state (handleRoleChange (Some e) userId r st) = st).
Proof.
  intros Hstep. unfold in_step in *. destruct st as [tb us]. simpl in *.
  unfold update_by_id.
  assert (Hmap : forall (A : Type) (f : AppUser -> A) (g : AppUser -> AppUser)
                   (l : list AppUser),
             (forall u, f (g u) = f u) ->
             map f (map (fun u => if String.eqb (id u) userId then g u else u)
                      l) = map f l).
  { intros A f g l H. rewrite map_map. apply map_ext. intros u.
    destruct (String.eqb (id u) userId); [apply H|reflexivity]. }
  split; [now apply Permutation_map|].
  split; [now apply Permutation_map|].
  repeat (split; [now apply Hmap|]).
  split; [|now intros e].
  rewrite !map_map. f_equal; apply map_ext; intros u;
    destruct (String.eqb (id u) userId) eqn:E; simpl; rewrite E; reflexivity.
Qed.

Lemma approval_and_role_are_independent_witness :
  let bob := {| id := "u-2"; name := "Bob"; email := "bob@example.com";
                role := pending; approved := false;
                created_at := "2024-05-01" |} in
  let st := {| table := [bob]; users := [bob] |} in
  map approved (table (state (handleRoleChange None "u-2" employee st)))
  = [false]
  /\ map role (table (state (handleApproveDeny None "u-2" true st)))
     = [pending].
Proof.
  intros bob st.
  assert (H : in_step st) by apply Permutation_refl.
  destruct (approval_and_role_are_independent st "u-2" true employee H)
    as (_ & _ & Hr & _ & Ha & _).
  split; [exact Ha | exact Hr].
Defined.

End UsersPage.

(** * The settings page *)

Section SettingsPage.
Import Settings.

Lemma to_column_spec (items : list Item) (s : string) :
  In s (to_column items) <-> In s (map value items) /\ s <> "".
Proof.
  unfold to_column. rewrite filter_In, truthy_name_nonempty. tauto.
Qed.

Lemma filter_all {A} (p : A -> bool) (l : list A) :
  Forall (fun x => p x = true) l -> List.filter p l = l.
Proof.
  induction 1 as [|x l Hx _ IH]; [reflexivity|]. simpl. now rewrite Hx, IH.
Qed.

Lemma items_values (l : list string) : map value (to_items (Some l)) = l.
Proof.
  unfold to_items. simpl. rewrite map_map. simpl. apply map_id.
Qed.

Lemma to_column_back (l : list string) :
  Forall (fun s => s <> "") l -> to_column (to_items (Some l)) = l.
Proof.
  intros Hl. unfold to_column. rewrite items_values. apply filter_all.
  eapply Forall_impl; [exact Hl|]. intros s Hs.
  now apply truthy_name_nonempty.
Qed.

(** X19: the lists the settings page stores hold no empty entry, and a
    list without empty entries survives being loaded into the form and
    saved again.  Whatever the form holds, the project types and the
    vendors sent to the backend are the values of the form in their order
    with the empty ones left out; a row added with the Add button and left
    empty is therefore not stored; and loading a stored list into the form
    and saving it gives the same list back whenever it has no empty
    entry. *)
Theorem stored_lists_drop_empty_entries (data : SettingsFormData) :
  let c := settingsToUpdate data in
  (forall s, In s (new_project_types c)
             <-> In s (map value (project_types data)) /\ s <> "")
  /\ (forall s, In s (new_vendor_list c)
                <-> In s (map value (vendor_list data)) /\ s <> "")
  /\ (forall items, to_column (items ++ [{| value := "" |}])
                    = to_column items)
  /\ (forall l, to_column (to_items (Some l))
                = List.filter (fun s => negb (String.eqb s "")) l)
  /\ (forall l, Forall (fun s => s <> "") l ->
                to_column (to_items (Some l)) = l)
  /\ to_column (to_items None) = [].
Proof.
  simpl. split; [intros s; apply to_column_spec|].
  split; [intros s; apply to_column_spec|].
  split; [|split; [|split]].
  - intros items. unfold to_column. rewrite map_app, List.filter_app. simpl.
    apply app_nil_r.
  - intros l. unfold to_column. rewrite items_values. apply filter_ext.
    intros [|c s]; reflexivity.
  - apply to_column_back.
  - reflexivity.
Qed.

(** X20: how the settings page saves.  A signed-in user's submit sends
    the update of the row [global_settings]; the insert of that row is sent
    exactly when the update was answered with the code [PGRST116], and it
    carries the same columns.  The page reports success exactly when the
    last request sent was accepted; otherwise it shows the message of the
    answer to the last request.  Without a user nothing is sent. *)
Theorem settings_save_protocol (user : option Auth.User)
    (updateAnswer insertAnswer : option CodedError)
    (data : SettingsFormData) :
  let c := settingsToUpdate data in
  let reqs := fst (onSubmit user updateAnswer insertAnswer data) in
  let evs := snd (onSubmit user updateAnswer insertAnswer data) in
  (user = None ->
   reqs = [] /\ evs = [Toast destructive "Error" "Access Denied."])
  /\ (user <> None ->
      (In (InsertSettings "global_settings" c) reqs
       <-> exists e, updateAnswer = Some e /\ code e = "PGRST116")
      /\ (reqs = [UpdateSettings "global_settings" c]
          \/ reqs = [UpdateSettings "global_settings" c;
                     InsertSettings "global_settings" c])
      /\ (evs = (SetBusy true :: saved ++ [SetBusy false])
          <-> updateAnswer = None
              \/ (exists e, updateAnswer = Some e /\ code e = "PGRST116")
                 /\ insertAnswer = None)
      /\ (evs = SetBusy true :: saved ++ [SetBusy false]
          \/ exists e, evs = SetBusy true :: caught e ++ [SetBusy false])).
Proof.
  intros c reqs evs. subst c reqs evs. unfold onSubmit.
  destruct user as [u|]; [|split; [auto|congruence]].
  split; [discriminate|]. intros _.
  destruct updateAnswer as [e|].
  - destruct (String.eqb_spec (code e) "PGRST116") as [Hc|Hc].
    + destruct insertAnswer as [ie|]; simpl.
      * split; [split; [eauto|auto]|]. split; [auto|].
        split; [|eauto].
        split; [discriminate|]. intros [H|[_ H]]; discriminate H.
      * split; [split; [eauto|auto]|]. split; [auto|].
        split; [|auto]. split; [eauto|reflexivity].
    + simpl. split.
      { split; [intros [H|[]]; discriminate H|].
        intros (e' & [= <-] & H). contradiction. }
      split; [auto|]. split; [|eauto].
      split; [discriminate|].
      intros [H|[(e' & [= <-] & H) _]]; [discriminate H|contradiction].
  - simpl. split.
    { split; [intros [H|[]]; discriminate H|]. intros (e' & H & _).
      discriminate H. }
    split; [auto|]. split; [|auto]. split; [auto|reflexivity].
Qed.

Lemma settings_save_protocol_witness :
  let missing := Some {| code := "PGRST116";
                         error := {| message := "no rows" |} |} in
  fst (onSubmit (Some alice) missing None defaultValues)
  = [UpdateSettings "global_settings" (settingsToUpdate defaultValues);
     InsertSettings "global_settings" (settingsToUpdate defaultValues)]
  /\ In (InsertSettings "global_settings" (settingsToUpdate defaultValues))
       (fst (onSubmit (Some alice) missing None defaultValues)).
Proof.
  intros missing. split; [reflexivity|].
  assert (Hu : Some alice <> None) by discriminate.
  apply (proj1 (proj2 (settings_save_protocol (Some alice) missing None
                         defaultValues) Hu)).
  eexists. split; reflexivity.
Defined.

(** X25: loading the settings.  An answer with the code [PGRST116] (no
    row) is not an error for the page: nothing is shown and, no row having
    come, the form keeps what it held; any other error leaves the form as
    it was and shows the backend's message.  When a row came back, the
    form never holds an empty list of allowed file types, and saving right
    after loading sends the row back as it is stored, provided its allowed
    file types are not empty and its two lists are there and hold no empty
    entry. *)
Theorem settings_load_then_save (form : SettingsFormData) :
  (forall e, code e = "PGRST116" ->
     fetchSettings None (Some e) form = (form, [SetBusy true; SetBusy false]))
  /\ (forall data e, code e <> "PGRST116" ->
        fst (fetchSettings data (Some e) form) = form
        /\ In (Toast destructive "Error"
                 (message_or (error e) "Failed to load settings."))
             (snd (fetchSettings data (Some e) form)))
  /\ (forall row,
        allowed_file_types (fst (fetchSettings (Some row) None form)) <> "")
  /\ (forall row a pt vl,
        row_allowed_file_types row = Some a -> a <> "" ->
        row_project_types row = Some pt -> Forall (fun s => s <> "") pt ->
        row_vendor_list row = Some vl -> Forall (fun s => s <> "") vl ->
        settingsToUpdate (fst (fetchSettings (Some row) None form))
        = {| new_allowed_file_types := a;
             new_project_types := pt;
             new_vendor_list := vl |}).
Proof.
  split; [|split; [|split]].
  - intros e He. unfold fetchSettings. now rewrite He.
  - intros data e He. unfold fetchSettings.
    destruct (String.eqb_spec (code e) "PGRST116"); [contradiction|].
    simpl. auto.
  - intros row. simpl. unfold form_of. simpl.
    destruct (row_allowed_file_types row) as [[|c s]|]; simpl; discriminate.
  - intros row a pt vl Ha Hne Hp Hpt Hv Hvl.
    unfold fetchSettings, settingsToUpdate, form_of. simpl.
    rewrite Ha, Hp, Hv.
    rewrite !to_column_back by assumption.
    destruct a; [congruence|reflexivity].
Qed.

Lemma settings_load_then_save_witness :
  let row := {| row_allowed_file_types := Some ".pdf";
                row_project_types := Some ["Road"; "Bridge"];
                row_vendor_list := Some [] |} in
  settingsToUpdate (fst (fetchSettings (Some row) None defaultValues))
  = {| new_allowed_file_types := ".pdf";
       new_project_types := ["Road"; "Bridge"];
       new_vendor_list := [] |}.
Proof.
  intros row.
  apply (proj2 (proj2 (proj2 (settings_load_then_save defaultValues)))
           row ".pdf" ["Road"; "Bridge"] []);
    try reflexivity; try discriminate.
  - repeat constructor; discriminate.
  - constructor.
Defined.

End SettingsPage.

(** * The earlier router *)

Section Legacy.
Import Auth LegacyApp.

Lemma legacy_one_segment (auth : AuthContextType) (x : string) :
  App auth [x]
  = if String.eqb "auth" (Router.lowercase x) then Display AuthPage
    else if String.eqb "dashboard" (Router.lowercase x)
         then ProtectedRoute auth (Display DashboardPage)
         else NoMatch.
Proof.
  unfold App. cbn -[String.eqb Router.lowercase]. rewrite !andb_true_r.
  reflexivity.
Qed.

Lemma legacy_auth_settles (auth : AuthContextType) (k : nat) (x : string) :
  Router.lowercase x = "auth" -> settle k auth [x] = Display AuthPage.
Proof.
  intros Hx.
  assert (E : App auth [x] = Display AuthPage)
    by (now rewrite legacy_one_segment, Hx).
  destruct k; simpl; now rewrite E.
Qed.

(** X21: the earlier router, [unnamed/part_000], hands its guard the
    dashboard as children, and redirects the root path by the auth state.
    While the context is loading the root path and [/dashboard] show the
    loading placeholder; afterwards both end, after one navigation at most,
    on the dashboard for a signed-in user and on the auth page for a
    visitor; [/auth] shows the auth page in every state.  The router reads
    the two names in either case ([/AUTH] is the auth page too); a path that
    is not the root and not one of the two names in some case matches no
    route. *)
Theorem legacy_gate (auth : AuthContextType) (h : nat) :
  let verdict :=
    if loading auth then Loading
    else match user auth with
         | Some _ => Display DashboardPage
         | None => Display AuthPage
         end in
  settle (1 + h) auth [] = verdict
  /\ (forall x, Router.lowercase x = "dashboard" ->
                settle (1 + h) auth [x] = verdict)
  /\ (forall x, Router.lowercase x = "auth" ->
                settle h auth [x] = Display AuthPage)
  /\ (forall location,
         App auth location <> NoMatch
         <-> location = []
             \/ exists x, location = [x]
                          /\ (Router.lowercase x = "auth"
                              \/ Router.lowercase x = "dashboard")).
Proof.
  intros verdict. subst verdict.
  assert (Hd : forall k x,
             Router.lowercase x = "dashboard" ->
             settle (S k) auth [x]
             = if loading auth then Loading
               else match user auth with
                    | Some _ => Display DashboardPage
                    | None => Display AuthPage
                    end).
  { intros k x Hx.
    assert (E : App auth [x] = ProtectedRoute auth (Display DashboardPage))
      by (now rewrite legacy_one_segment, Hx).
    simpl. rewrite E. unfold ProtectedRoute.
    destruct (loading auth); [reflexivity|].
    destruct (user auth); [reflexivity|].
    change (Navigation.segments "/auth") with ["auth"].
    now apply legacy_auth_settles. }
  split; [|split; [intros x Hx; now apply Hd|split]].
  - simpl. unfold App at 1, AuthRedirect. simpl.
    destruct (loading auth) eqn:Hl; [reflexivity|].
    destruct (user auth) eqn:Hu.
    + change (Navigation.segments "/dashboard") with ["dashboard"].
      destruct h as [|h].
      * simpl. unfold App, ProtectedRoute. simpl. now rewrite Hl, Hu.
      * now rewrite (Hd h "dashboard" eq_refl).
    + change (Navigation.segments "/auth") with ["auth"].
      now apply legacy_auth_settles.
  - intros x Hx. now apply legacy_auth_settles.
  - intros location. split.
    + intros H. destruct location as [|x [|y l]]; [now left| |].
      * right. exists x. split; [reflexivity|].
        rewrite legacy_one_segment in H.
        destruct (String.eqb_spec "auth" (Router.lowercase x)) as [E|_];
          [now left|].
        destruct (String.eqb_spec "dashboard" (Router.lowercase x)) as [E|_];
          [now right|]. now destruct H.
      * exfalso. apply H. unfold App.
        cbn -[String.eqb Router.lowercase]. now rewrite !andb_false_r.
    + intros [->|(x & -> & [Hx|Hx])].
      * unfold App, AuthRedirect. simpl.
        destruct (loading auth); [discriminate|].
        destruct (user auth); discriminate.
      * rewrite legacy_one_segment, Hx. discriminate.
      * rewrite legacy_one_segment, Hx. simpl. unfold ProtectedRoute.
        destruct (loading auth); [discriminate|].
        destruct (user auth); discriminate.
Qed.

Lemma legacy_gate_witness :
  settle 0 signed_out ["AUTH"] = Display AuthPage
  /\ settle 1 (signed_in alice) ["Dashboard"] = Display DashboardPage
  /\ App signed_out ["auth"; "x"] = NoMatch.
Proof.
  destruct (legacy_gate signed_out 0) as (_ & _ & H & _).
  destruct (legacy_gate (signed_in alice) 0) as (_ & H' & _).
  split; [exact (H "AUTH" eq_refl)|].
  split; [exact (H' "Dashboard" eq_refl) | reflexivity].
Defined.

End Legacy.

(** * The create page on the sample backend *)

Lemma zod_create_compensates_witness :
  let w := fresh_backend [None; Some refused; None] in
  let w' := run (NewProjectZod.onSubmit depot_values) w in
  In (DeleteProject "id-0") (new_requests w w')
  /\ project_rows "id-0" w' = [].
Proof.
  intros w w'.
  assert (Hne : NewProjectZod.activities depot_values <> []) by discriminate.
  destruct (zod_create_compensates depot_values w alice refused None []
              eq_refl eq_refl Hne eq_refl) as (Hreq & _ & Hdel & _).
  split.
  - unfold w'. rewrite Hreq. simpl. auto.
  - exact (proj2 (Hdel eq_refl)).
Defined.

Lemma csv_import_all_or_nothing_witness :
  fst (NewProject.handleCsvUpload (Some (Papa.complete short_row_csv))
         [excavation]) = [excavation].
Proof.
  assert (He : Papa.errors short_row_csv <> []) by discriminate.
  now rewrite (proj1 (csv_import_all_or_nothing short_row_csv [excavation]) He).
Defined.
